(** * Interaction data (KPI) collection of the BrowserID dialog

    A shallow embedding of
    [resources/static/common/js/modules/interaction_data.js] and of the
    lines of [resources/static/dialog/js/start.js] that start the module,
    followed by the properties of the name translation, the event
    recorder, the sampling decision and the continuation handling.

    Conventions of the embedding.
    - The module instance [self] and the durable store are threaded
      through every function as a pair, the [State].
    - A JS object used as a dictionary is a [gmap string _]; only its own
      properties are modelled (a message called "toString" would find
      the method inherited from [Object.prototype]).
    - [undefined] and [null] in a field that the code only tests for
      truthiness are [None].
    - Times are integral epoch milliseconds; a JS number that can be
      [NaN] is a [num]; the sample rate and the random draw are
      rationals.
    - An event tuple is a JS array: cell 0 is the name, cell 1 the
      offset, the cells from index 2 on are numbers or holes.
    - The clock, the random source and the page are arguments of the
      functions that read them.
    - The callbacks of [publishCurrent] run later, in steps of their
      own: see [step]. *)

From Stdlib Require Import ZArith QArith String Ascii List Lia.
From stdpp Require Import gmap strings list pretty.

Local Open Scope string_scope.
Local Open Scope list_scope.
Local Open Scope Z_scope.

(** ** JS numbers and truthiness *)

Inductive num : Type :=
| Num (z : Z)
| NaN.

Definition num_sub (a b : num) : num :=
  match a, b with
  | Num x, Num y => Num (x - y)
  | _, _ => NaN
  end.

Definition num_add (a b : num) : num :=
  match a, b with
  | Num x, Num y => Num (x + y)
  | _, _ => NaN
  end.

(** [ToString] of a number (an integer below 10^21 in absolute value
    prints as its decimal digits). *)
Definition num_toString (n : num) : string :=
  match n with
  | Num z => pretty z
  | NaN => "NaN"
  end.

(** A string is truthy when it is not empty. *)
Definition truthy_string (s : string) : bool :=
  match s with
  | EmptyString => false
  | String _ _ => true
  end.

(** [a || b] on possibly missing strings. *)
Definition or_string (a : option string) (b : option string) : option string :=
  match a with
  | Some s => if truthy_string s then Some s else b
  | None => b
  end.

(** An optional number is truthy when it is present and not zero. *)
Definition truthy_Z (o : option Z) : bool :=
  match o with
  | Some z => negb (z =? 0)
  | None => false
  end.

(** [s.split(c)[0]]: the part of [s] before the first [c]. *)
Fixpoint split_head (c : ascii) (s : string) : string :=
  match s with
  | EmptyString => EmptyString
  | String a rest =>
      if Ascii.eqb a c then EmptyString else String a (split_head c rest)
  end.

(** [parts.join(sep)]. *)
Fixpoint join (sep : string) (parts : list string) : string :=
  match parts with
  | [] => ""
  | [p] => p
  | p :: rest => p +:+ sep +:+ join sep rest
  end.

(** ** Payloads of mediator messages *)

Record Network : Type := {
  net_type : option string;
  net_url : option string;
  net_status : option Z
}.

(** [data.action] of an error screen: the error object and its title. *)
Record ErrorAction : Type := {
  action_id : string;
  action_title : option string
}.

Record Payload : Type := {
  p_name : option string;
  p_network : option Network;
  p_action : option ErrorAction;
  p_eventTime : option Z;
  p_duration : option Z
}.

(** The payload [{}]. *)
Definition empty_payload : Payload :=
  {| p_name := None; p_network := None; p_action := None;
     p_eventTime := None; p_duration := None |}.

(** The second argument of a mediator message: nothing, a point in time
    (the payload of "start_time", a [Date] or a number of milliseconds)
    or an object. *)
Inductive Data : Type :=
| DUndefined
| DDate (t : Z)
| DNumber (t : Z)
| DObject (p : Payload).

(** [data = data || {}]: a missing payload and the number 0 are falsy. *)
Definition data_or_empty (d : Data) : Data :=
  match d with
  | DUndefined => DObject empty_payload
  | DNumber 0 => DObject empty_payload
  | _ => d
  end.

(** Property reads [data.x] see the fields of an object and [undefined] on
    a date or a number. *)
Definition data_payload (d : Data) : Payload :=
  match d with
  | DObject p => p
  | _ => empty_payload
  end.

(** ** Name translation *)

Definition removeGetData (msg : string) (data : Payload) : option string :=
  match p_network data with
  | Some net =>
      match net_type net, net_url net with
      | Some ty, Some url =>
          if truthy_string msg && truthy_string ty && truthy_string url
          then Some (msg +:+ "." +:+ ty +:+ split_head "?"%char url)
          else Some "xhr.malformed_report"
      | _, _ => Some "xhr.malformed_report"
      end
  | None => Some "xhr.malformed_report"
  end.

(** ** Values of KPI records and the hosting browser *)

(** The values stored under the keys of a KPI record, apart from the
    event stream. *)
Inductive kval : Type :=
| KVNull
| KVBool (b : bool)
| KVNum (q : Q)
| KVStr (s : string)
| KVSize (width height : Z).

(** What the module takes from its surroundings and this file leaves
    open: [_.keyOf(errors, action)] over the table of known errors,
    [Date.prototype.toString] and [Date.parse] (both depend on the
    browser and its locale; [Date.parse] of a value that is not a date
    string is [NaN]). *)
Class Host : Type := {
  errors_keyOf : ErrorAction -> option string;
  Date_toString : Z -> string;
  Date_parse : option kval -> num
}.

(** The value side of the translation table: [null], a string or a
    function of the message and its payload. *)
Inductive KPIInfo : Type :=
| KNull
| KString (s : string)
| KFunction (f : string -> Payload -> option string).

(** The entry for "service" messages. *)
Definition service (msg : string) (data : Payload) : option string :=
  Some ("screen." +:+ match p_name data with
                      | Some n => n
                      | None => "undefined"
                      end).

Section Translation.

Context `{Host}.

Definition parseErrorScreen (msg : string) (data : Payload) : option string :=
  let parts1 :=
    match p_action data with
    | Some act =>
        match or_string (or_string (errors_keyOf act) (action_title act))
                        (Some "unknown") with
        | Some errorType => [errorType]
        | None => []
        end
    | None => []
    end in
  let parts2 :=
    match p_network data with
    | Some net =>
        match net_status net with
        | Some status => if 399 <? status then [pretty status] else []
        | None => []
        end
    | None => []
    end in
  let parts := parts1 ++ parts2 in
  let parts := match parts with [] => ["unknown"] | _ => parts end in
  Some ("screen.error." +:+ join "." parts).

Definition MediatorToKPINameTable : gmap string KPIInfo :=
  list_to_map
    [ ("service", KFunction service);
      ("cancel_state", KString "screen.cancel");
      ("primary_user_authenticating", KString "window.redirect_to_primary");
      ("dom_loading", KString "window.dom_loading");
      ("window_unload", KString "window.unload");
      ("channel_established", KString "window.channel_established");
      ("user_can_interact", KString "user.can_interact");
      ("generate_assertion", KNull);
      ("assertion_generated", KNull);
      ("user_staged", KString "user.user_staged");
      ("user_confirmed", KString "user.user_confirmed");
      ("email_staged", KString "user.email_staged");
      ("email_confirmed", KString "user.email_confirmed");
      ("reset_password_staged", KString "user.reset_password_staged");
      ("reset_password_confirmed", KString "user.reset_password_confirmed");
      ("reverify_email_staged", KString "user.reverify_email_staged");
      ("reverify_email_confirmed", KString "user.reverify_email_confirmed");
      ("notme", KString "user.logout");
      ("enter_password", KString "authenticate.enter_password");
      ("password_submit", KString "authenticate.password_submitted");
      ("authentication_success", KString "authenticate.password_success");
      ("authentication_fail", KString "authenticate.password_fail");
      ("xhr_complete", KFunction removeGetData);
      ("error_screen", KFunction parseErrorScreen) ].

(** [getKPIName]: [None] is the [undefined] the function returns when no
    branch applies. *)
Definition getKPIName (table : gmap string KPIInfo)
           (msg : string) (data : Payload) : option string :=
  match table !! msg with
  | Some KNull => Some msg
  | Some (KString s) => Some s
  | Some (KFunction f) => f msg data
  | None => None
  end.

End Translation.

(** ** Event tuples and KPI records *)

Definition REPEAT_COUNT_INDEX : nat := 3.

(** An event tuple [[name, offset, ...]]: [ev_rest] holds the cells of the
    array from index 2 on, [None] being a hole (reads as [undefined]). *)
Record EventTuple : Type := {
  ev_name : string;
  ev_offset : num;
  ev_rest : list (option Z)
}.

(** The cells of a JS array. *)
Inductive cell : Type :=
| CHole
| CStr (s : string)
| CNum (n : num).

Definition rest_cell (o : option Z) : cell :=
  match o with
  | Some z => CNum (Num z)
  | None => CHole
  end.

(** The tuple as the array it is in the program. *)
Definition cells (t : EventTuple) : list cell :=
  CStr (ev_name t) :: CNum (ev_offset t) :: map rest_cell (ev_rest t).

(** [tuple[i]] for an index [i >= 2]. *)
Definition tuple_get (t : EventTuple) (i : nat) : option Z :=
  mjoin (ev_rest t !! (i - 2)%nat).

(** [arr[i] = x] on a JS array: writing past the end extends the array
    with holes. *)
Fixpoint array_set (i : nat) (x : Z) (l : list (option Z)) : list (option Z) :=
  match i, l with
  | O, [] => [Some x]
  | O, _ :: l' => Some x :: l'
  | S i', [] => None :: array_set i' x []
  | S i', y :: l' => y :: array_set i' x l'
  end.

(** [tuple[i] = x] for an index [i >= 2]. *)
Definition tuple_set (t : EventTuple) (i : nat) (x : Z) : EventTuple :=
  {| ev_name := ev_name t;
     ev_offset := ev_offset t;
     ev_rest := array_set (i - 2)%nat x (ev_rest t) |}.

(** [event[1] += delta]. *)
Definition shift_offset (delta : num) (t : EventTuple) : EventTuple :=
  {| ev_name := ev_name t;
     ev_offset := num_add (ev_offset t) delta;
     ev_rest := ev_rest t |}.

Record KPIs : Type := {
  event_stream : option (list EventTuple);
  fields : gmap string kval
}.

(** The object [{}]. *)
Definition empty_KPIs : KPIs := {| event_stream := None; fields := ∅ |}.

(** [_.extend(target, source)]: every key of the source is copied onto
    the target. *)
Definition extend (target source : KPIs) : KPIs :=
  {| event_stream := match event_stream source with
                     | Some es => Some es
                     | None => event_stream target
                     end;
     fields := fields source ∪ fields target |}.

(** ** The durable store *)

Inductive ModelCall : Type :=
| CallPublishCurrent
| CallPush (d : KPIs)
| CallSetCurrent (d : KPIs).

(** Modelled from the spec: the durable store [bid.Models.InteractionData]
    ([getCurrent], [setCurrent], [push], [publishCurrent]), whose code is
    not part of the module.  One record is current at any time;
    [setCurrent] and [push] make their argument the current record, and
    the completion of [publishCurrent] leaves the slot empty.  [calls] is
    the sequence of writing calls received so far, oldest first. *)
Record Model : Type := {
  current : option KPIs;
  calls : list ModelCall
}.

Definition model_getCurrent (m : Model) : option KPIs := current m.

Definition model_setCurrent (d : KPIs) (m : Model) : Model :=
  {| current := Some d; calls := calls m ++ [CallSetCurrent d] |}.

Definition model_push (d : KPIs) (m : Model) : Model :=
  {| current := Some d; calls := calls m ++ [CallPush d] |}.

(** The call [model.publishCurrent(callback)]. *)
Definition model_publishCurrent (m : Model) : Model :=
  {| current := current m; calls := calls m ++ [CallPublishCurrent] |}.

(** The upload has finished, with whatever outcome: the slot is cleared
    before the callback runs. *)
Definition model_publishDone (m : Model) : Model :=
  {| current := None; calls := calls m |}.

(** ** The module instance *)

(** What [self.startTime] can hold: nothing yet, a [Date], a number or
    an object that is neither. *)
Inductive TimeValue : Type :=
| TUndefined
| TDate (t : Z)
| TNumber (n : num)
| TObject.

Definition time_toNumber (t : TimeValue) : num :=
  match t with
  | TDate z => Num z
  | TNumber n => n
  | TUndefined => NaN
  | TObject => NaN
  end.

(** The time value a message payload is when it is stored as the start
    time. *)
Definition data_time (d : Data) : TimeValue :=
  match d with
  | DDate t => TDate t
  | DNumber t => TNumber (Num t)
  | DObject _ => TObject
  | DUndefined => TUndefined
  end.

Record Self : Type := {
  mediatorToKPINameTable : gmap string KPIInfo;
  samplingEnabled : option bool;
  samplesBeingStored : bool;
  startTime : TimeValue;
  initialEventStream : option (list EventTuple);
  initialKPIs : option KPIs
}.

Definition set_mediatorToKPINameTable (v : gmap string KPIInfo) (s : Self) : Self :=
  {| mediatorToKPINameTable := v;
     samplingEnabled := samplingEnabled s;
     samplesBeingStored := samplesBeingStored s;
     startTime := startTime s;
     initialEventStream := initialEventStream s;
     initialKPIs := initialKPIs s |}.

Definition set_samplingEnabled (v : option bool) (s : Self) : Self :=
  {| mediatorToKPINameTable := mediatorToKPINameTable s;
     samplingEnabled := v;
     samplesBeingStored := samplesBeingStored s;
     startTime := startTime s;
     initialEventStream := initialEventStream s;
     initialKPIs := initialKPIs s |}.

Definition set_samplesBeingStored (v : bool) (s : Self) : Self :=
  {| mediatorToKPINameTable := mediatorToKPINameTable s;
     samplingEnabled := samplingEnabled s;
     samplesBeingStored := v;
     startTime := startTime s;
     initialEventStream := initialEventStream s;
     initialKPIs := initialKPIs s |}.

Definition set_startTime (v : TimeValue) (s : Self) : Self :=
  {| mediatorToKPINameTable := mediatorToKPINameTable s;
     samplingEnabled := samplingEnabled s;
     samplesBeingStored := samplesBeingStored s;
     startTime := v;
     initialEventStream := initialEventStream s;
     initialKPIs := initialKPIs s |}.

Definition set_initialEventStream (v : option (list EventTuple)) (s : Self) : Self :=
  {| mediatorToKPINameTable := mediatorToKPINameTable s;
     samplingEnabled := samplingEnabled s;
     samplesBeingStored := samplesBeingStored s;
     startTime := startTime s;
     initialEventStream := v;
     initialKPIs := initialKPIs s |}.

Definition set_initialKPIs (v : option KPIs) (s : Self) : Self :=
  {| mediatorToKPINameTable := mediatorToKPINameTable s;
     samplingEnabled := samplingEnabled s;
     samplesBeingStored := samplesBeingStored s;
     startTime := startTime s;
     initialEventStream := initialEventStream s;
     initialKPIs := v |}.

(** The module instance together with the durable store it writes to. *)
Definition State : Type := Self * Model.

(** The session context delivered by [user.withContext]. *)
Record Context : Type := {
  data_sample_rate : option Q;
  server_time : Z
}.

(** What [beginSampling] reads from the page: the [lang] attribute of
    the [html] element and [window.screen], when there is one. *)
Record Window : Type := {
  html_lang : option string;
  screen : option (Z * Z)
}.

(** A call either returns or raises a [TypeError]; the state is the one
    at that point. *)
Inductive Outcome : Type :=
| Normal (st : State)
| TypeError (st : State).

Definition outcome_state (o : Outcome) : State :=
  match o with
  | Normal st => st
  | TypeError st => st
  end.

Definition TEN_MINS_IN_MS : Z := 10 * 60 * 1000.

Section Operations.

Context `{Host}.

(** [self.samplingEnabled === false]. *)
Definition sampling_is_false (s : Self) : bool :=
  match samplingEnabled s with
  | Some false => true
  | _ => false
  end.

(** [!self.samplingEnabled]. *)
Definition sampling_is_falsy (s : Self) : bool :=
  match samplingEnabled s with
  | Some true => false
  | _ => true
  end.

Definition getCurrentKPIs (st : State) : option KPIs :=
  let (s, m) := st in
  if sampling_is_false s then None
  else if samplesBeingStored s then model_getCurrent m
  else initialKPIs s.

Definition setCurrentKPIs (kpis : KPIs) (st : State) : State :=
  let (s, m) := st in
  if samplesBeingStored s then (s, model_setCurrent kpis m)
  else (set_initialKPIs (Some kpis) s, m).

Definition getCurrentEventStream (st : State) : option (list EventTuple) :=
  let (s, m) := st in
  if sampling_is_false s then None
  else if samplesBeingStored s then
    let d := default empty_KPIs (model_getCurrent m) in
    Some (default [] (event_stream d))
  else initialEventStream s.

Definition setCurrentEventStream (eventStream : list EventTuple)
           (st : State) : State :=
  let (s, m) := st in
  if samplesBeingStored s then
    let d := default empty_KPIs (model_getCurrent m) in
    (s, model_setCurrent {| event_stream := Some eventStream;
                            fields := fields d |} m)
  else (set_initialEventStream (Some eventStream) s, m).

(** [self.startTime.toString()]; [undefined] has no such method. *)
Definition toString (t : TimeValue) : option string :=
  match t with
  | TUndefined => None
  | TDate z => Some (Date_toString z)
  | TNumber n => Some (num_toString n)
  | TObject => Some "[object Object]"
  end.

(** [beginSampling]; [random] is what [Math.random()] returns if it is
    called.  On the promotion path the argument of [_.extend] is built
    first, with [self.startTime.toString()], and [_.extend] then assigns
    to the properties of [self.initialKPIs]: an undefined start time or
    a null [initialKPIs] raises a [TypeError] before anything but the
    flag has changed. *)
Definition beginSampling (context : Context) (random : Q) (win : Window)
           (st : State) : Outcome :=
  let (s, m) := st in
  let sampleRate := default 0%Q (data_sample_rate context) in
  let s1 :=
    match samplingEnabled s with
    | None => set_samplingEnabled (Some (Qle_bool random sampleRate)) s
    | Some _ => s
    end in
  if sampling_is_falsy s1 then Normal (s1, m)
  else
    let roundedServerTime :=
      server_time context / TEN_MINS_IN_MS * TEN_MINS_IN_MS in
    match initialKPIs s1, toString (startTime s1) with
    | Some kpis, Some local =>
        let added : gmap string kval :=
          list_to_map
            [ ("sample_rate", KVNum sampleRate);
              ("timestamp", KVNum (inject_Z roundedServerTime));
              ("local_timestamp", KVStr local);
              ("lang", match or_string (html_lang win) None with
                       | Some l => KVStr l
                       | None => KVNull
                       end);
              ("new_account", KVBool false) ] in
        let newKPIs :=
          {| event_stream := initialEventStream s1;
             fields := added ∪ fields kpis |} in
        let newKPIs :=
          match screen win with
          | Some (w, h) =>
              {| event_stream := event_stream newKPIs;
                 fields := <["screen_size" := KVSize w h]> (fields newKPIs) |}
          | None => newKPIs
          end in
        let m1 := model_push newKPIs m in
        let s2 := set_initialKPIs None (set_initialEventStream None s1) in
        Normal (set_samplesBeingStored true s2, m1)
    | _, _ => TypeError (s1, m)
    end.

Definition addKPIData (kpiData : KPIs) (st : State) : State :=
  match getCurrentKPIs st with
  | Some currentData => setCurrentKPIs (extend currentData kpiData) st
  | None => st
  end.

Definition onKPIData (msg : string) (kpiData : KPIs) (st : State) : State :=
  addKPIData kpiData st.

Definition updateStartTime (newStartTime : TimeValue) (st : State) : State :=
  let st1 :=
    match getCurrentEventStream st with
    | Some ((_ :: _) as eventStream) =>
        let delta :=
          num_sub (time_toNumber (startTime (fst st)))
                  (time_toNumber newStartTime) in
        setCurrentEventStream (map (shift_offset delta) eventStream) st
    | _ => st
    end in
  (set_startTime newStartTime (fst st1), snd st1).

(** [/^xhr_complete/.test(eventName)]. *)
Definition is_xhr_complete (eventName : string) : bool :=
  String.prefix "xhr_complete" eventName.

(** The result is the collapsed tuple when the event repeats the last
    one, [None] (the function returns nothing) otherwise. *)
Definition preventDuplicateXhrEvents (eventName : string) (st : State)
  : State * option EventTuple :=
  match getCurrentEventStream st with
  | Some eventStream =>
      if is_xhr_complete eventName then
        match eventStream !! (length eventStream - 1)%nat with
        | Some lastEvent =>
            if String.eqb (ev_name lastEvent) eventName then
              let eventCallCount :=
                match tuple_get lastEvent REPEAT_COUNT_INDEX with
                | Some c => if c =? 0 then 1 else c
                | None => 1
                end in
              let eventCallCount := eventCallCount + 1 in
              let lastEvent :=
                tuple_set lastEvent REPEAT_COUNT_INDEX eventCallCount in
              (setCurrentEventStream
                 (<[(length eventStream - 1)%nat := lastEvent]> eventStream)
                 st,
               Some lastEvent)
            else (st, None)
        | None => (st, None)
        end
      else (st, None)
  | None => (st, None)
  end.

(** [addEvent]; [now] is what [new Date()] gives if it is evaluated.  The
    result is the tuple the function returns, if any. *)
Definition addEvent (msg : string) (data : Data) (now : Z) (st : State)
  : State * option EventTuple :=
  let data := data_or_empty data in
  let st :=
    if String.eqb msg "start_time" then updateStartTime (data_time data) st
    else st in
  if sampling_is_false (fst st) then (st, None)
  else
    match getKPIName (mediatorToKPINameTable (fst st)) msg
                     (data_payload data) with
    | None => (st, None)
    | Some eventName =>
        if negb (truthy_string eventName) then (st, None)
        else
          match preventDuplicateXhrEvents eventName st with
          | (st, Some _) => (st, None)
          | (st, None) =>
              let payload := data_payload data in
              let time :=
                if truthy_Z (p_eventTime payload)
                then default now (p_eventTime payload)
                else now in
              let eventData :=
                {| ev_name := eventName;
                   ev_offset :=
                     num_sub (Num time) (time_toNumber (startTime (fst st)));
                   ev_rest :=
                     if truthy_Z (p_duration payload)
                     then [p_duration payload]
                     else [] |} in
              match getCurrentEventStream st with
              | Some eventStream =>
                  (setCurrentEventStream (eventStream ++ [eventData]) st,
                   Some eventData)
              | None => (st, Some eventData)
              end
          end
    end.

End Operations.

(** ** Starting the module and the callbacks it registers *)

Record Options : Type := {
  opt_samplingEnabled : option bool;
  opt_continuation : bool
}.

(** A callback that has been handed out and has not run yet; [done] tells
    whether [publishCurrent] was given a completion function. *)
Inductive Pending : Type :=
| PendingPublish (done : bool)
| PendingContext (done : bool) (status : bool).

(** The module instance, the store, the callbacks in flight, the
    messages the module has published on the mediator, the statuses
    passed to completion functions, and whether the module listens to
    the mediator. *)
Record World : Type := {
  state : State;
  pending : list Pending;
  published : list string;
  completed : list bool;
  subscribed : bool
}.

Definition with_state (st : State) (w : World) : World :=
  {| state := st;
     pending := pending w;
     published := published w;
     completed := completed w;
     subscribed := subscribed w |}.

Definition with_pending (p : list Pending) (w : World) : World :=
  {| state := state w;
     pending := p;
     published := published w;
     completed := completed w;
     subscribed := subscribed w |}.

Section Lifecycle.

Context `{Host}.

(** [publishCurrent(done)] up to the call of [model.publishCurrent]:
    the rest of its body is the callback [publish_callback]. *)
Definition publishCurrent (done : bool) (w : World) : World :=
  let (s, m) := state w in
  with_pending (pending w ++ [PendingPublish done])
               (with_state (s, model_publishCurrent m) w).

(** The function given to [model.publishCurrent]: it asks for the
    session context and leaves the rest to [context_callback]. *)
Definition publish_callback (done : bool) (status : bool) (w : World) : World :=
  with_pending (pending w ++ [PendingContext done status]) w.

(** The function given to [user.withContext]. *)
Definition context_callback (done : bool) (status : bool)
           (context : Context) (random : Q) (win : Window) (w : World) : World :=
  match beginSampling context random win (state w) with
  | Normal st =>
      let msg := if status then "interaction_data_send_complete"
                 else "interaction_data_send_error" in
      {| state := st;
         pending := pending w;
         published := published w ++ [msg];
         completed := if done then completed w ++ [status] else completed w;
         subscribed := subscribed w |}
  | TypeError st => with_state st w
  end.

(** [Module.start(options)] of a new module instance over the store
    [m]; [now] is what [new Date()] gives. *)
Definition start (options : Options) (now : Z) (m : Model) : World :=
  if opt_continuation options then
    match model_getCurrent m with
    | Some lastSessionsKPIs =>
        {| state :=
             ({| mediatorToKPINameTable := MediatorToKPINameTable;
                 samplingEnabled := Some true;
                 samplesBeingStored := true;
                 startTime :=
                   TNumber (Date_parse
                              (fields lastSessionsKPIs !! "local_timestamp"));
                 initialEventStream := None;
                 initialKPIs := None |}, m);
           pending := [];
           published := [];
           completed := [];
           subscribed := true |}
    | None =>
        {| state :=
             ({| mediatorToKPINameTable := MediatorToKPINameTable;
                 samplingEnabled := Some false;
                 samplesBeingStored := false;
                 startTime := TUndefined;
                 initialEventStream := None;
                 initialKPIs := None |}, m);
           pending := [];
           published := [];
           completed := [];
           subscribed := false |}
    end
  else
    let w :=
      {| state :=
           ({| mediatorToKPINameTable := MediatorToKPINameTable;
               samplingEnabled := opt_samplingEnabled options;
               samplesBeingStored := false;
               startTime := TDate now;
               initialEventStream := Some [];
               initialKPIs := Some empty_KPIs |}, m);
         pending := [];
         published := [];
         completed := [];
         subscribed := false |} in
    let w := publishCurrent false w in
    {| state := state w;
       pending := pending w;
       published := published w;
       completed := completed w;
       subscribed := true |}.

(** [start.js]: the page is a continuation when its location hash
    contains "#AUTH_RETURN". *)
Definition continuation (hash : string) : bool :=
  match String.index 0 "#AUTH_RETURN" hash with
  | Some _ => true
  | None => false
  end.

Definition start_js (hash : string) (now : Z) (m : Model) : World :=
  start {| opt_samplingEnabled := None;
           opt_continuation := continuation hash |} now m.

(** The test interface. *)
Definition setNameTable (table : gmap string KPIInfo) (st : State) : State :=
  (set_mediatorToKPINameTable table (fst st), snd st).

Definition enable (st : State) : State :=
  (set_samplingEnabled (Some true) (fst st), snd st).

Definition disable (st : State) : State :=
  (set_samplingEnabled (Some false) (fst st), snd st).

(** ** Executions *)

(** What can happen to a page: a message is passed to [addEvent] or KPI
    data to [onKPIData] (by the mediator, or by a direct call), a pending
    callback runs, somebody calls [publishCurrent] or the test
    interface, or the page is loaded anew over the same store. *)
Inductive Label : Type :=
| LEvent (msg : string) (data : Data) (now : Z)
| LKpiData (kpiData : KPIs)
| LPublishDone (status : bool)
| LContext (context : Context) (random : Q) (win : Window)
| LPublishCurrent (done : bool)
| LSetNameTable (table : gmap string KPIInfo)
| LEnable
| LDisable
| LStart (options : Options) (now : Z).

(** One step of a page.  The payload of "kpi_data" carries KPI values
    and no event stream of its own; the completion of a publication
    empties the slot of the store and then runs the callback. *)
Inductive step : World -> Label -> World -> Prop :=
| step_event w msg data now :
    step w (LEvent msg data now)
         (with_state (fst (addEvent msg data now (state w))) w)
| step_kpi_data w kpiData :
    event_stream kpiData = None ->
    step w (LKpiData kpiData)
         (with_state (onKPIData "kpi_data" kpiData (state w)) w)
| step_publish_done w before after done status :
    pending w = before ++ PendingPublish done :: after ->
    step w (LPublishDone status)
         (publish_callback done status
            (with_pending (before ++ after)
               (with_state (fst (state w), model_publishDone (snd (state w))) w)))
| step_context w before after done status context random win :
    pending w = before ++ PendingContext done status :: after ->
    step w (LContext context random win)
         (context_callback done status context random win
            (with_pending (before ++ after) w))
| step_publish_current w done :
    step w (LPublishCurrent done) (publishCurrent done w)
| step_set_name_table w table :
    step w (LSetNameTable table)
         (with_state (setNameTable table (state w)) w)
| step_enable w :
    step w LEnable (with_state (enable (state w)) w)
| step_disable w :
    step w LDisable (with_state (disable (state w)) w)
| step_start w options now :
    step w (LStart options now) (start options now (snd (state w))).

(** The worlds reached from the first page load over an empty store,
    with the labels of the steps taken, oldest first. *)
Inductive run : list Label -> World -> Prop :=
| run_start options now :
    run [LStart options now]
        (start options now {| current := None; calls := [] |})
| run_step trace w l w' :
    run trace w -> step w l w' -> run (trace ++ [l]) w'.

Definition reachable (w : World) : Prop := exists trace, run trace w.

End Lifecycle.

(** ** The rest of start.js *)

(** Modelled from the spec: the mediator hands every published message to
    the subscribers of all messages; the module subscribes [addEvent] at
    the end of [start] ([self.subscribeAll(addEvent)]), so a message
    reaches [addEvent] when the module has subscribed. *)
Definition mediator_publish (msg : string) (data : Data) (now : Z)
           (w : World) : World :=
  if subscribed w
  then with_state (fst (addEvent msg data now (state w))) w
  else w.

Section Page.

Context `{Host}.

(** [start.js] up to the report of the DOM loading time: [hash] is
    [window.location.hash], [DOM_LOADING] the time the server wrote into
    the page, if it did; [now] and [now'] are the readings of the clock
    in [start] and in [addEvent]. *)
Definition start_page (hash : option string) (DOM_LOADING : option Z)
           (now now' : Z) (m : Model) : World :=
  let hash := default "" (or_string hash (Some "")) in
  let w := start_js hash now m in
  if truthy_Z DOM_LOADING then
    mediator_publish "dom_loading"
      (DObject {| p_name := None; p_network := None; p_action := None;
                  p_eventTime := DOM_LOADING; p_duration := None |})
      now' w
  else w.

End Page.

(** ** The argument lists of the network tests *)

(** The [config] of a staging method. *)
Record StagingConfig : Type := {
  cfg_password : bool;
  cfg_unverified : bool
}.

Section StagingArgs.

(** The callbacks are values of any kind. *)
Variable Callback : Type.

(** [testHelpers.unexpectedFailure]. *)
Variable unexpectedFailure : Callback.

Inductive Arg : Type :=
| AStr (s : string)
| ABool (b : bool)
| ACallback (c : Callback).

Definition getStagingMethodArgs (email : string) (onComplete : Callback)
           (config : StagingConfig) (onFailure : option Callback) : list Arg :=
  let args := [AStr email] in
  let args := if cfg_password config then args ++ [AStr "password"] else args in
  let args := args ++ [AStr "origin"] in
  let args := if cfg_unverified config then args ++ [ABool false] else args in
  args ++ [ACallback onComplete;
           ACallback (default unexpectedFailure onFailure)].

End StagingArgs.

Arguments AStr {Callback} s.
Arguments ABool {Callback} b.
Arguments ACallback {Callback} c.

(** [stagingMethods]. *)
Definition stagingMethods : gmap string StagingConfig :=
  list_to_map
    [ ("createUser", {| cfg_password := true; cfg_unverified := true |});
      ("addSecondaryEmail", {| cfg_password := true; cfg_unverified := false |});
      ("requestPasswordReset",
       {| cfg_password := false; cfg_unverified := false |});
      ("requestEmailReverify",
       {| cfg_password := false; cfg_unverified := false |});
      ("requestTransitionToSecondary",
       {| cfg_password := true; cfg_unverified := false |}) ].

(** ** Notions used in the statements *)

(** [lastEvent[REPEAT_COUNT_INDEX] || 1], then [++]. *)
Definition next_count (t : EventTuple) : Z :=
  match tuple_get t REPEAT_COUNT_INDEX with
  | Some c => if c =? 0 then 1 else c
  | None => 1
  end + 1.

(** No name of a network completion directly follows itself. *)
Fixpoint no_repeat (names : list string) : bool :=
  match names with
  | a :: (b :: _) as rest =>
      negb (is_xhr_complete b && String.eqb a b) && no_repeat rest
  | _ => true
  end.



(** A message, its payload and the time at which it is recorded. *)
Definition Event : Type := string * Data * Z.

(** The state after the message has gone through [addEvent]. *)
Definition recorded (e : Event) (st : State) : State :=
  let '(msg, data, now) := e in fst (addEvent msg data now st).


(** The state after a sequence of messages has gone through [addEvent]. *)
Definition recorded_all (events : list Event) (st : State) : State :=
  foldl (fun st e => recorded e st) st events.

(** What reaches the module from the mediator: a message, handed to
    [addEvent], or KPI data, handed to [onKPIData]. *)
Inductive Input : Type :=
| InEvent (msg : string) (data : Data) (now : Z)
| InKpiData (kpiData : KPIs).

Definition feed1 (i : Input) (st : State) : State :=
  match i with
  | InEvent msg data now => fst (addEvent msg data now st)
  | InKpiData kpiData => onKPIData "kpi_data" kpiData st
  end.

(** The state after a sequence of inputs, oldest first. *)
Definition feed (inputs : list Input) (st : State) : State :=
  foldl (fun st i => feed1 i st) st inputs.

(** The keys [beginSampling] sets in the record it pushes, [screen_size]
    apart. *)
Definition promotion_keys : list string :=
  ["sample_rate"; "timestamp"; "local_timestamp"; "lang"; "new_account"].

(** While samples are stored durably the buffers of the module instance
    are null. *)
Definition one_medium (st : State) : Prop :=
  samplesBeingStored (fst st) = true ->
  initialEventStream (fst st) = None /\ initialKPIs (fst st) = None.

(** The records handed to [model.push], oldest first. *)
Fixpoint pushes (cs : list ModelCall) : list KPIs :=
  match cs with
  | [] => []
  | CallPush d :: cs' => d :: pushes cs'
  | _ :: cs' => pushes cs'
  end.

(** How far the publication of the previous record has come on the
    current page. *)
Inductive Phase : Type :=
| Idle
| Initiated
| Completed.

Definition phase_step (p : Phase) (l : Label) : Phase :=
  match l with
  | LStart options _ => if opt_continuation options then Idle else Initiated
  | LPublishCurrent _ => match p with Idle => Initiated | _ => p end
  | LPublishDone _ => match p with Idle => Idle | _ => Completed end
  | _ => p
  end.

Definition phase (trace : list Label) : Phase := fold_left phase_step trace Idle.

(** The label starts a publication: a page load that is not a
    continuation, or a call of [publishCurrent]. *)
Definition initiates (l : Label) : Prop :=
  match l with
  | LStart options _ => opt_continuation options = false
  | LPublishCurrent _ => True
  | _ => False
  end.

Definition is_start (l : Label) : bool :=
  match l with
  | LStart _ _ => true
  | _ => false
  end.

(** No page load among the labels. *)
Definition no_start (trace : list Label) : Prop :=
  forallb (fun l => negb (is_start l)) trace = true.

(** ** Sample inputs *)

(** A host for running the definitions: no known errors, dates printed
    as their millisecond value between brackets, and a [Date.parse]
    that reads nothing. *)
Definition sample_host : Host :=
  {| errors_keyOf := fun _ => None;
     Date_toString := fun z => "[" +:+ pretty z +:+ "]";
     Date_parse := fun _ => NaN |}.

Definition empty_model : Model := {| current := None; calls := [] |}.

(** The payload of an "xhr_complete" message. *)
Definition xhr_payload (type url : string) : Payload :=
  {| p_name := None;
     p_network := Some {| net_type := Some type;
                          net_url := Some url;
                          net_status := None |};
     p_action := None;
     p_eventTime := None;
     p_duration := None |}.

(** The state right after a first page load at time 1000, sampling not
    yet decided, and the same with sampling switched on by the caller. *)
Definition fresh_state : State :=
  state (start (H := sample_host)
               {| opt_samplingEnabled := None; opt_continuation := false |}
               1000 empty_model).

Definition preset_state : State :=
  state (start (H := sample_host)
               {| opt_samplingEnabled := Some true; opt_continuation := false |}
               1000 empty_model).

Definition sample_window : Window :=
  {| html_lang := Some "en"; screen := Some (1024, 768) |}.

Definition disabled_state : State :=
  state (start (H := sample_host)
               {| opt_samplingEnabled := Some false; opt_continuation := false |}
               1000 empty_model).

Definition sample_context : Context :=
  {| data_sample_rate := Some 1%Q; server_time := 1000003 |}.

(** Three completions of one url with different queries, another event,
    and the world after the first page load followed by two messages. *)
Definition completion_1 : Event :=
  ("xhr_complete", DObject (xhr_payload "GET" "/wsapi/list_emails?a=1"), 1010).


Definition first_load : World :=
  start (H := sample_host)
        {| opt_samplingEnabled := None; opt_continuation := false |}
        1000 empty_model.

Definition two_messages : World :=
  with_state
    (fst (addEvent "xhr_complete"
                   (DObject (xhr_payload "GET" "/wsapi/list_emails")) 1020
                   (state (with_state
                             (fst (addEvent "generate_assertion" DUndefined
                                            1010 (state first_load)))
                             first_load))))
    (with_state
       (fst (addEvent "generate_assertion" DUndefined 1010 (state first_load)))
       first_load).


Definition stored_record : KPIs :=
  {| event_stream :=
       Some [ {| ev_name := "screen.rp_info"; ev_offset := Num 40;
                 ev_rest := [] |} ];
     fields := {[ "local_timestamp" := KVStr "Thu Jan 17 2013 17:16:12" ]} |}.

Definition stored_model : Model :=
  {| current := Some stored_record; calls := [] |}.

(** A payload that carries only the HTTP status of a failed request, and
    one that carries only an error with a title. *)
Definition status_payload (status : Z) : Payload :=
  {| p_name := None;
     p_network := Some {| net_type := None; net_url := None;
                          net_status := Some status |};
     p_action := None;
     p_eventTime := None;
     p_duration := None |}.

Definition offline_action : ErrorAction :=
  {| action_id := "offline"; action_title := Some "Offline" |}.

Definition action_payload : Payload :=
  {| p_name := None; p_network := None; p_action := Some offline_action;
     p_eventTime := None; p_duration := None |}.

(** A payload with the time of the event and its duration. *)
Definition timed_payload : Payload :=
  {| p_name := None; p_network := None; p_action := None;
     p_eventTime := Some 990; p_duration := Some 25 |}.

(** The state after one event, 10 ms after the first page load. *)
Definition one_event_state : State :=
  fst (addEvent "generate_assertion" DUndefined 1010 fresh_state).

(** KPI data as the dialog reports them. *)
Definition sample_kpi_data : KPIs :=
  {| event_stream := None;
     fields := {[ "new_account" := KVBool true ]} |}.

Definition more_kpi_data : KPIs :=
  {| event_stream := None;
     fields := {[ "number_emails" := KVNum 2 ]} |}.

Definition sample_inputs : list Input :=
  [ InEvent "generate_assertion" DUndefined 1010;
    InKpiData sample_kpi_data;
    InEvent "xhr_complete" (DObject (xhr_payload "GET" "/wsapi/list_emails"))
            1020 ].

(** The state of a continuation page over the stored record, and the
    same after the record has been uploaded and the slot cleared. *)
Definition stored_state : State :=
  state (start_js (H := sample_host) "#AUTH_RETURN" 5000 stored_model).

Definition empty_slot_state : State :=
  (fst stored_state, model_publishDone (snd stored_state)).

(** A session context with a sample rate of one in ten. *)
Definition low_rate_context : Context :=
  {| data_sample_rate := Some (1 # 10)%Q; server_time := 1000003 |}.

(** * Properties *)

(** ** Streams behind the getter and the setter *)

Lemma setCurrentEventStream_self (es : list EventTuple) (st : State) :
  samplingEnabled (fst (setCurrentEventStream es st)) = samplingEnabled (fst st)
  /\ samplesBeingStored (fst (setCurrentEventStream es st)) = samplesBeingStored (fst st)
  /\ startTime (fst (setCurrentEventStream es st)) = startTime (fst st)
  /\ mediatorToKPINameTable (fst (setCurrentEventStream es st))
     = mediatorToKPINameTable (fst st).
Proof.
  destruct st as [s m]. unfold setCurrentEventStream.
  destruct (samplesBeingStored s) eqn:E; simpl; rewrite ?E; auto.
Qed.

Lemma getCurrentEventStream_set (es : list EventTuple) (st : State) :
  sampling_is_false (fst st) = false ->
  getCurrentEventStream (setCurrentEventStream es st) = Some es.
Proof.
  destruct st as [s m]. simpl. intros Hs.
  unfold setCurrentEventStream, getCurrentEventStream.
  destruct (samplesBeingStored s) eqn:E.
  - rewrite Hs, E. reflexivity.
  - unfold sampling_is_false in *. simpl. rewrite Hs. simpl. rewrite E.
    reflexivity.
Qed.

Lemma getCurrentEventStream_Some (st : State) (es : list EventTuple) :
  getCurrentEventStream st = Some es -> sampling_is_false (fst st) = false.
Proof.
  destruct st as [s m]. simpl. unfold getCurrentEventStream.
  destruct (sampling_is_false s); [discriminate | reflexivity].
Qed.

Lemma getCurrentEventStream_startTime (t : TimeValue) (st : State) :
  getCurrentEventStream (set_startTime t (fst st), snd st)
  = getCurrentEventStream st.
Proof. destruct st as [s m]. reflexivity. Qed.

(** ** Name translation *)

Lemma split_head_prefix (c : ascii) (s : string) :
  exists rest, s = split_head c s +:+ rest
               /\ (rest = "" \/ exists q, rest = String c q).
Proof.
  induction s as [|a s IH]; simpl.
  - exists "". split; [reflexivity | left; reflexivity].
  - destruct (Ascii.eqb a c) eqn:E.
    + apply Ascii.eqb_eq in E. subst a.
      exists (String c s). split; [reflexivity | right; eauto].
    + destruct IH as (rest & Hs & Hr).
      exists rest. split; [| exact Hr].
      change (String a s = String a (split_head c s +:+ rest)).
      f_equal. exact Hs.
Qed.

Lemma split_head_free (c : ascii) (s : string) :
  ~ In c (list_ascii_of_string (split_head c s)).
Proof.
  induction s as [|a s IH]; simpl; [tauto|].
  destruct (Ascii.eqb a c) eqn:E; simpl; [tauto|].
  apply Ascii.eqb_neq in E. tauto.
Qed.

Lemma truthy_string_true (s : string) : s <> "" -> truthy_string s = true.
Proof. intros Hs. destruct s; [congruence | reflexivity]. Qed.

Section TranslationProperties.

Context `{Host}.

Lemma last_lookup_sub {A} (l : list A) : l !! (length l - 1)%nat = last l.
Proof. rewrite last_lookup. f_equal. lia. Qed.

(** An event whose translated name is [n] and which does not repeat
    the last network completion is appended to the current stream. *)
Lemma addEvent_appends (st : State) (msg : string) (data : Data) (now : Z)
      (n : string) (es : list EventTuple) :
  msg <> "start_time" ->
  getCurrentEventStream st = Some es ->
  getKPIName (mediatorToKPINameTable (fst st)) msg
             (data_payload (data_or_empty data)) = Some n ->
  n <> "" ->
  (is_xhr_complete n = false \/ forall t, last es = Some t -> ev_name t <> n) ->
  exists t,
    addEvent msg data now st = (setCurrentEventStream (es ++ [t]) st, Some t)
    /\ ev_name t = n
    /\ tuple_get t REPEAT_COUNT_INDEX = None
    /\ (length (ev_rest t) <= 1)%nat.
Proof.
  intros Hmsg Hes Hname Hn Hdup.
  unfold addEvent.
  apply String.eqb_neq in Hmsg. rewrite Hmsg.
  rewrite (getCurrentEventStream_Some _ _ Hes), Hname.
  rewrite (truthy_string_true _ Hn). simpl negb. cbv iota.
  assert (Hp : preventDuplicateXhrEvents n st = (st, None)).
  { unfold preventDuplicateXhrEvents. rewrite Hes.
    destruct Hdup as [-> | Hlast]; [reflexivity|].
    destruct (is_xhr_complete n); [|reflexivity].
    rewrite last_lookup_sub.
    destruct (last es) as [t|] eqn:El; [|reflexivity].
    specialize (Hlast t eq_refl). apply String.eqb_neq in Hlast.
    rewrite Hlast. reflexivity. }
  rewrite Hp, Hes.
  eexists. split; [reflexivity|]. simpl. split; [reflexivity|].
  destruct (truthy_Z (p_duration (data_payload (data_or_empty data))));
    simpl; split; auto; lia.
Qed.


(** C3, as the code has it: for an "xhr_complete" message whose payload
    has a non-empty network type and url, the name is the message name
    "xhr_complete", a dot, the type and the url up to its first
    question mark; when the network, the type or the url is missing or
    empty the name is "xhr.malformed_report".  The translation is a
    total function: no payload makes it fail. *)
Theorem xhr_complete_name (data : Payload) :
  (forall net ty url,
      p_network data = Some net ->
      net_type net = Some ty -> net_url net = Some url ->
      ty <> "" -> url <> "" ->
      exists path rest,
        getKPIName MediatorToKPINameTable "xhr_complete" data
        = Some ("xhr_complete." +:+ ty +:+ path)
        /\ url = path +:+ rest
        /\ ~ In "?"%char (list_ascii_of_string path)
        /\ (rest = "" \/ exists q, rest = String "?"%char q))
  /\ ((p_network data = None
       \/ exists net, p_network data = Some net
                      /\ (net_type net = None \/ net_type net = Some ""
                          \/ net_url net = None \/ net_url net = Some "")) ->
      getKPIName MediatorToKPINameTable "xhr_complete" data
      = Some "xhr.malformed_report").
Proof.
  assert (Hx : getKPIName MediatorToKPINameTable "xhr_complete" data
               = removeGetData "xhr_complete" data) by reflexivity.
  rewrite Hx. unfold removeGetData. split.
  - intros net ty url -> -> -> Hty Hurl.
    rewrite (truthy_string_true _ Hty), (truthy_string_true _ Hurl). simpl.
    destruct (split_head_prefix "?"%char url) as (rest & Hu & Hr).
    exists (split_head "?"%char url), rest.
    split; [reflexivity|]. split; [exact Hu|].
    split; [apply split_head_free | exact Hr].
  - intros [-> | (net & -> & Hm)]; [reflexivity|].
    destruct (net_type net) as [ty|], (net_url net) as [url|];
      try reflexivity.
    destruct Hm as [Hm | [Hm | [Hm | Hm]]]; try discriminate;
      injection Hm as ->; [reflexivity|].
    rewrite andb_false_r. reflexivity.
Qed.

End TranslationProperties.



(** A completion of [GET /wsapi/user_creation_status?email=a], and a
    completion with an empty payload. *)
Lemma xhr_complete_name_witness :
  (exists path rest,
      getKPIName (MediatorToKPINameTable (H := sample_host)) "xhr_complete"
                 (xhr_payload "GET" "/wsapi/user_creation_status?email=a")
      = Some ("xhr_complete." +:+ "GET" +:+ path)
      /\ "/wsapi/user_creation_status?email=a" = path +:+ rest
      /\ ~ In "?"%char (list_ascii_of_string path)
      /\ (rest = "" \/ exists q, rest = String "?"%char q))
  /\ getKPIName (MediatorToKPINameTable (H := sample_host)) "xhr_complete"
                empty_payload
     = Some "xhr.malformed_report".
Proof.
  split.
  - apply (proj1 (xhr_complete_name
                    (H := sample_host)
                    (xhr_payload "GET" "/wsapi/user_creation_status?email=a"))
                 {| net_type := Some "GET";
                    net_url := Some "/wsapi/user_creation_status?email=a";
                    net_status := None |});
      [reflexivity | reflexivity | reflexivity | discriminate | discriminate].
  - apply (proj2 (xhr_complete_name (H := sample_host) empty_payload)).
    left. reflexivity.
Defined.

(** C3 as stated fails: the name of a well-formed completion starts with
    the message name "xhr_complete", not with "xhr". *)
Lemma xhr_name_does_not_start_with_xhr_dot :
  getKPIName (MediatorToKPINameTable (H := sample_host)) "xhr_complete"
             (xhr_payload "GET" "/wsapi/user_creation_status?email=a")
  = Some "xhr_complete.GET/wsapi/user_creation_status"
  /\ getKPIName (MediatorToKPINameTable (H := sample_host)) "xhr_complete"
                (xhr_payload "GET" "/wsapi/user_creation_status?email=a")
     <> Some ("xhr." +:+ "GET" +:+ "/wsapi/user_creation_status").
Proof. split; [reflexivity | discriminate]. Qed.

(** ** The sampling decision *)

Section Sampling.

Context `{Host}.

(** The draw is made only while the flag is undefined, and the flag
    then is the comparison of the draw with the rate. *)
Lemma beginSampling_decision (context : Context) (random : Q) (win : Window)
      (st : State) :
  samplingEnabled (fst st) = None ->
  samplingEnabled (fst (outcome_state (beginSampling context random win st)))
  = Some (Qle_bool random (default 0%Q (data_sample_rate context))).
Proof.
  destruct st as [s m]. simpl. intros Hs.
  unfold beginSampling. rewrite Hs.
  destruct (Qle_bool random (default 0%Q (data_sample_rate context)));
    unfold sampling_is_falsy; simpl; [|reflexivity].
  destruct (initialKPIs s), (toString (startTime s)); reflexivity.
Qed.

(** With rate 1 every draw in [0,1) enables sampling. *)
Lemma rate_one_enables (context : Context) (random : Q) (win : Window)
      (st : State) :
  samplingEnabled (fst st) = None ->
  data_sample_rate context = Some 1%Q ->
  (0 <= random)%Q -> (random < 1)%Q ->
  samplingEnabled (fst (outcome_state (beginSampling context random win st)))
  = Some true.
Proof.
  intros Hs Hr _ Hlt. rewrite beginSampling_decision by exact Hs.
  rewrite Hr. simpl. f_equal. apply Qle_bool_iff. apply Qlt_le_weak, Hlt.
Qed.

(** With rate 0 every draw above 0 disables sampling, and nothing else
    happens. *)
Lemma rate_zero_disables_positive_draw (context : Context) (random : Q)
      (win : Window) (st : State) :
  samplingEnabled (fst st) = None ->
  data_sample_rate context = Some 0%Q ->
  (0 < random)%Q ->
  beginSampling context random win st
  = Normal (set_samplingEnabled (Some false) (fst st), snd st).
Proof.
  destruct st as [s m]. simpl. intros Hs Hr Hpos.
  unfold beginSampling. rewrite Hs, Hr. simpl.
  assert (Hb : Qle_bool random 0 = false).
  { destruct (Qle_bool random 0) eqn:E; [|reflexivity].
    apply Qle_bool_iff in E. exfalso. apply (Qlt_not_le _ _ Hpos E). }
  rewrite Hb. reflexivity.
Qed.

(** The promotion path of [beginSampling]: what is pushed and what
    becomes of the module instance. *)
Lemma beginSampling_promotes (context : Context) (random : Q) (win : Window)
      (st : State) (kpis : KPIs) (local : string) :
  samplingEnabled (fst st) = Some true
  \/ (samplingEnabled (fst st) = None
      /\ Qle_bool random (default 0%Q (data_sample_rate context)) = true) ->
  initialKPIs (fst st) = Some kpis ->
  toString (startTime (fst st)) = Some local ->
  exists st' record,
    beginSampling context random win st = Normal st'
    /\ snd st' = model_push record (snd st)
    /\ event_stream record = initialEventStream (fst st)
    /\ fields record !! "sample_rate"
       = Some (KVNum (default 0%Q (data_sample_rate context)))
    /\ fields record !! "timestamp"
       = Some (KVNum (inject_Z (server_time context / 600000 * 600000)))
    /\ fields record !! "local_timestamp" = Some (KVStr local)
    /\ fields record !! "new_account" = Some (KVBool false)
    /\ samplingEnabled (fst st') = Some true
    /\ samplesBeingStored (fst st') = true
    /\ initialEventStream (fst st') = None
    /\ initialKPIs (fst st') = None
    /\ startTime (fst st') = startTime (fst st).
Proof.
  destruct st as [s m]. simpl. intros Hen Hk Hl.
  unfold beginSampling.
  assert (Hs1 : exists s1,
             match samplingEnabled s with
             | Some _ => s
             | None =>
                 set_samplingEnabled
                   (Some (Qle_bool random
                            (default 0%Q (data_sample_rate context)))) s
             end = s1
             /\ samplingEnabled s1 = Some true
             /\ initialKPIs s1 = Some kpis
             /\ startTime s1 = startTime s
             /\ initialEventStream s1 = initialEventStream s).
  { destruct Hen as [He | [He Hq]]; rewrite He; [|rewrite Hq];
      eexists; (split; [reflexivity|]); simpl; auto. }
  destruct Hs1 as (s1 & -> & He1 & Hk1 & Ht1 & Hi1).
  unfold sampling_is_falsy. rewrite He1, Hk1, Ht1, Hl.
  change TEN_MINS_IN_MS with 600000.
  destruct (screen win) as [[w h]|]; do 2 eexists;
    (split; [reflexivity|]); simpl; rewrite ?Hi1;
    repeat split; try reflexivity; try assumption;
    cbn [fields event_stream];
    rewrite ?lookup_insert_ne by discriminate;
    apply lookup_union_Some_l; reflexivity.
Qed.

(** C4, as the code has it: once the flag is [false], [beginSampling]
    returns at once and changes nothing; once the flag is [true], no
    draw is made and the flag stays [true], but the call goes on to the
    promotion path, which with the buffered record at hand pushes a
    record to the store and switches to durable storage. *)
Theorem beginSampling_once_decided (context : Context) (random : Q)
        (win : Window) (st : State) :
  (samplingEnabled (fst st) = Some false ->
   beginSampling context random win st = Normal st)
  /\ (samplingEnabled (fst st) = Some true ->
      samplingEnabled
        (fst (outcome_state (beginSampling context random win st)))
      = Some true
      /\ forall kpis local,
          initialKPIs (fst st) = Some kpis ->
          toString (startTime (fst st)) = Some local ->
          exists st' record,
            beginSampling context random win st = Normal st'
            /\ calls (snd st') = calls (snd st) ++ [CallPush record]
            /\ current (snd st') = Some record
            /\ samplesBeingStored (fst st') = true).
Proof.
  split; intros He.
  - destruct st as [s m]. simpl in He. unfold beginSampling.
    rewrite He. unfold sampling_is_falsy. rewrite He. reflexivity.
  - split.
    + destruct st as [s m]. simpl in He. unfold beginSampling.
      rewrite He. unfold sampling_is_falsy. rewrite He.
      destruct (initialKPIs s), (toString (startTime s)); simpl;
        try exact He; destruct (screen win) as [[w h]|]; reflexivity.
    + intros kpis local Hk Hl.
      destruct (beginSampling_promotes context random win st kpis local
                  (or_introl He) Hk Hl)
        as (st' & record & Hb & Hm & _ & _ & _ & _ & _ & _ & Hst & _).
      exists st', record. rewrite Hm. auto.
Qed.

(** C7: when sampling comes out enabled (the draw is at most the rate, or
    the flag was already [true]) with server time [T], the record pushed
    to the store holds the buffered events, the sample rate, [T] rounded
    down to a multiple of 600000 ms, the string form of the start time
    and [new_account = false]; the buffer is then dropped and the
    module stores durably. *)
Theorem beginSampling_pushes_buffered_record (context : Context) (random : Q)
        (win : Window) (st : State) (kpis : KPIs) (local : string)
        (buffered : list EventTuple) :
  samplingEnabled (fst st) = Some true
  \/ (samplingEnabled (fst st) = None
      /\ Qle_bool random (default 0%Q (data_sample_rate context)) = true) ->
  initialKPIs (fst st) = Some kpis ->
  initialEventStream (fst st) = Some buffered ->
  toString (startTime (fst st)) = Some local ->
  exists st' record timestamp,
    beginSampling context random win st = Normal st'
    /\ calls (snd st') = calls (snd st) ++ [CallPush record]
    /\ model_getCurrent (snd st') = Some record
    /\ event_stream record = Some buffered
    /\ fields record !! "sample_rate"
       = Some (KVNum (default 0%Q (data_sample_rate context)))
    /\ fields record !! "timestamp" = Some (KVNum (inject_Z timestamp))
    /\ timestamp = server_time context / 600000 * 600000
    /\ (timestamp <= server_time context < timestamp + 600000)
    /\ timestamp mod 600000 = 0
    /\ fields record !! "local_timestamp" = Some (KVStr local)
    /\ fields record !! "new_account" = Some (KVBool false)
    /\ initialEventStream (fst st') = None
    /\ initialKPIs (fst st') = None
    /\ samplesBeingStored (fst st') = true
    /\ samplingEnabled (fst st') = Some true
    /\ getCurrentEventStream st' = Some buffered.
Proof.
  intros Hen Hk Hbuf Hl.
  destruct (beginSampling_promotes context random win st kpis local Hen Hk Hl)
    as (st' & record & Hb & Hm & Hes & Hrate & Hts & Hloc & Hnew
        & He' & Hst' & Hi' & Hk' & _).
  exists st', record, (server_time context / 600000 * 600000).
  rewrite Hm, Hes, Hbuf.
  repeat split; auto.
  - pose proof (Z.mul_div_le (server_time context) 600000). lia.
  - pose proof (Z.mod_pos_bound (server_time context) 600000).
    pose proof (Z.div_mod (server_time context) 600000). lia.
  - apply Z_mod_mult.
  - destruct st' as [s' m']. simpl in *. unfold getCurrentEventStream.
    unfold sampling_is_false. rewrite He', Hst', Hm. simpl.
    rewrite Hes, Hbuf. reflexivity.
Qed.

End Sampling.

(** C2 on the code: with sample rate 0 and sampling undecided, the
    draw 0 (a value [Math.random()] can return) is at most the rate, so
    the session is sampled: the flag becomes [true] and the buffered
    record is pushed to the store. *)
Theorem rate_zero_draw_zero_enables :
  let out := beginSampling (H := sample_host)
                           {| data_sample_rate := Some 0%Q;
                              server_time := 1000003 |}
                           0%Q sample_window fresh_state in
  samplingEnabled (fst fresh_state) = None
  /\ samplingEnabled (fst (outcome_state out)) = Some true
  /\ samplesBeingStored (fst (outcome_state out)) = true
  /\ exists record,
      calls (snd (outcome_state out))
      = calls (snd fresh_state) ++ [CallPush record].
Proof.
  simpl. split; [reflexivity|]. split; [reflexivity|].
  split; [reflexivity|]. eexists. reflexivity.
Qed.

(** [beginSampling] after a start with sampling switched off, and after a
    start with sampling switched on. *)
Lemma beginSampling_once_decided_witness :
  beginSampling (H := sample_host) sample_context (1 # 2) sample_window
                disabled_state
  = Normal disabled_state
  /\ exists st' record,
      beginSampling (H := sample_host) sample_context (1 # 2) sample_window
                    preset_state
      = Normal st'
      /\ calls (snd st') = calls (snd preset_state) ++ [CallPush record]
      /\ current (snd st') = Some record
      /\ samplesBeingStored (fst st') = true.
Proof.
  split.
  - apply (proj1 (beginSampling_once_decided
                    (H := sample_host) sample_context (1 # 2) sample_window
                    disabled_state)).
    reflexivity.
  - destruct (proj2 (beginSampling_once_decided
                       (H := sample_host) sample_context (1 # 2) sample_window
                       preset_state) eq_refl) as [_ Hpush].
    eapply Hpush; reflexivity.
Defined.

(** C4 as stated fails: with sampling switched on beforehand, the flag is
    a concrete boolean, yet [beginSampling] changes the module instance
    and pushes a record to the store. *)
Lemma beginSampling_not_a_noop_when_enabled :
  let out := beginSampling (H := sample_host) sample_context (1 # 2)
                           sample_window preset_state in
  samplingEnabled (fst preset_state) = Some true
  /\ out <> Normal preset_state
  /\ samplesBeingStored (fst preset_state) = false
  /\ samplesBeingStored (fst (outcome_state out)) = true
  /\ exists record,
      calls (snd (outcome_state out))
      = calls (snd preset_state) ++ [CallPush record].
Proof.
  simpl. split; [reflexivity|]. split.
  - intros Heq.
    apply (f_equal (fun o => samplesBeingStored (fst (outcome_state o)))) in Heq.
    discriminate Heq.
  - split; [reflexivity|]. split; [reflexivity|]. eexists. reflexivity.
Qed.

(** Rate 1, draw 1/2 and server time 1000003 on the first page load: the
    timestamp of the pushed record is 600000. *)
Lemma beginSampling_pushes_buffered_record_witness :
  exists st' record,
    beginSampling (H := sample_host) sample_context (1 # 2) sample_window
                  fresh_state
    = Normal st'
    /\ model_getCurrent (snd st') = Some record
    /\ event_stream record = Some []
    /\ fields record !! "sample_rate" = Some (KVNum 1)
    /\ fields record !! "timestamp" = Some (KVNum (inject_Z 600000))
    /\ fields record !! "new_account" = Some (KVBool false)
    /\ samplesBeingStored (fst st') = true.
Proof.
  destruct (beginSampling_pushes_buffered_record
              (H := sample_host) sample_context (1 # 2) sample_window
              fresh_state empty_KPIs (Date_toString 1000) []
              (or_intror (conj eq_refl eq_refl)) eq_refl eq_refl eq_refl)
    as (st' & record & ts & Hb & _ & Hcur & Hes & Hrate & Hts & Heq & _ & _
        & _ & Hnew & _ & _ & Hst & _).
  exists st', record. rewrite Hts, Heq. repeat split; assumption.
Defined.

(** ** The event recorder: start-time correction *)

Lemma updateStartTime_stream (newStartTime : TimeValue) (st : State)
      (es : list EventTuple) :
  getCurrentEventStream st = Some es ->
  getCurrentEventStream (updateStartTime newStartTime st)
  = Some (map (shift_offset
                 (num_sub (time_toNumber (startTime (fst st)))
                          (time_toNumber newStartTime))) es)
  /\ startTime (fst (updateStartTime newStartTime st)) = newStartTime
  /\ samplingEnabled (fst (updateStartTime newStartTime st))
     = samplingEnabled (fst st)
  /\ mediatorToKPINameTable (fst (updateStartTime newStartTime st))
     = mediatorToKPINameTable (fst st).
Proof.
  intros Hes. unfold updateStartTime. rewrite Hes.
  destruct es as [|e es].
  - rewrite getCurrentEventStream_startTime, Hes. simpl. auto.
  - rewrite getCurrentEventStream_startTime.
    rewrite getCurrentEventStream_set
      by exact (getCurrentEventStream_Some _ _ Hes).
    destruct (setCurrentEventStream_self
                (map (shift_offset
                        (num_sub (time_toNumber (startTime (fst st)))
                                 (time_toNumber newStartTime))) (e :: es)) st)
      as (He & _ & _ & Ht).
    simpl. auto.
Qed.

(** C5: a correction of the start time from [old] to [new] adds
    [d = old - new] to the offset of every tuple of the current stream
    and changes nothing else in it: the tuples keep their places, and
    the distance and the order between any two offsets are what they
    were.  The "start_time" message, which has no entry in the table,
    does exactly this and adds no tuple of its own. *)
Theorem start_time_correction_shifts_offsets (st : State)
        (newStartTime : TimeValue) (es : list EventTuple) (old new : Z) :
  getCurrentEventStream st = Some es ->
  time_toNumber (startTime (fst st)) = Num old ->
  time_toNumber newStartTime = Num new ->
  let d := old - new in
  let st' := updateStartTime newStartTime st in
  exists es',
    getCurrentEventStream st' = Some es'
    /\ startTime (fst st') = newStartTime
    /\ length es' = length es
    /\ (forall i t,
           es !! i = Some t ->
           exists t',
             es' !! i = Some t'
             /\ ev_name t' = ev_name t
             /\ ev_rest t' = ev_rest t
             /\ ev_offset t' = num_add (ev_offset t) (Num d)
             /\ forall o, ev_offset t = Num o -> ev_offset t' = Num (o + d))
    /\ (forall i j ti tj ti' tj' oi oj,
           es !! i = Some ti -> es !! j = Some tj ->
           es' !! i = Some ti' -> es' !! j = Some tj' ->
           ev_offset ti = Num oi -> ev_offset tj = Num oj ->
           exists oi' oj',
             ev_offset ti' = Num oi' /\ ev_offset tj' = Num oj'
             /\ oj' - oi' = oj - oi
             /\ (oi <= oj <-> oi' <= oj'))
    /\ (forall data now,
           mediatorToKPINameTable (fst st) !! "start_time" = None ->
           data_time (data_or_empty data) = newStartTime ->
           addEvent "start_time" data now st = (st', None)).
Proof.
  intros Hes Hold Hnew d st'.
  destruct (updateStartTime_stream newStartTime st es Hes)
    as (Hget & Hstart & Hen & Htab).
  rewrite Hold, Hnew in Hget. simpl in Hget. fold d in Hget.
  exists (map (shift_offset (Num d)) es).
  split; [exact Hget|]. split; [exact Hstart|].
  split; [apply length_map|].
  assert (Hshift : forall i t,
             es !! i = Some t ->
             map (shift_offset (Num d)) es !! i = Some (shift_offset (Num d) t)).
  { intros i t Hi. rewrite list_lookup_fmap, Hi. reflexivity. }
  split; [|split].
  - intros i t Hi. exists (shift_offset (Num d) t).
    split; [exact (Hshift i t Hi)|]. simpl.
    repeat split. intros o ->. reflexivity.
  - intros i j ti tj ti' tj' oi oj Hi Hj Hi' Hj' Hoi Hoj.
    rewrite (Hshift i ti Hi) in Hi'. rewrite (Hshift j tj Hj) in Hj'.
    injection Hi' as <-. injection Hj' as <-.
    exists (oi + d), (oj + d). simpl. rewrite Hoi, Hoj. simpl.
    repeat split; lia.
  - intros data now Htable Hdata.
    subst st'. unfold addEvent. simpl String.eqb. cbv iota. rewrite Hdata.
    unfold getKPIName. rewrite Htab, Htable.
    destruct (sampling_is_false (fst (updateStartTime newStartTime st)));
      reflexivity.
Qed.

(** An event recorded 10 ms after a start at 1000, then the start time
    corrected to 900: the offset becomes 10 + (1000 - 900). *)
Lemma start_time_correction_witness :
  let st := fst (addEvent "generate_assertion" DUndefined 1010 fresh_state) in
  exists es',
    getCurrentEventStream (updateStartTime (TNumber (Num 900)) st) = Some es'
    /\ (forall i t,
           [ {| ev_name := "generate_assertion";
                ev_offset := Num 10; ev_rest := [] |} ] !! i = Some t ->
           exists t', es' !! i = Some t'
                      /\ ev_offset t' = num_add (ev_offset t) (Num (1000 - 900)))
    /\ addEvent "start_time" (DNumber 900) 1020 st
       = (updateStartTime (TNumber (Num 900)) st, None).
Proof.
  intros st.
  destruct (start_time_correction_shifts_offsets
              st (TNumber (Num 900))
              [ {| ev_name := "generate_assertion";
                   ev_offset := Num 10; ev_rest := [] |} ] 1000 900
              eq_refl eq_refl eq_refl)
    as (es' & Hget & _ & _ & Hshift & _ & Hmsg).
  exists es'. split; [exact Hget|]. split.
  - intros i t Hi. destruct (Hshift i t Hi) as (t' & Ht' & _ & _ & Ho & _).
    exists t'. auto.
  - apply Hmsg; reflexivity.
Defined.

(** ** The event recorder: repeated network completions *)









Lemma insert_last_snoc {A} (l : list A) (x y : A) :
  <[(length (l ++ [x]) - 1)%nat := y]> (l ++ [x]) = l ++ [y].
Proof.
  rewrite length_app. simpl.
  replace (length l + 1 - 1)%nat with (length l + 0)%nat by lia.
  rewrite insert_app_r. reflexivity.
Qed.

Lemma no_repeat_snoc (names : list string) (n : string) :
  no_repeat (names ++ [n])
  = no_repeat names
    && match last names with
       | Some a => negb (is_xhr_complete n && String.eqb a n)
       | None => true
       end.
Proof.
  induction names as [|a [|b rest] IH].
  - reflexivity.
  - simpl. rewrite andb_true_r. reflexivity.
  - change (no_repeat ((a :: b :: rest) ++ [n]))
      with (negb (is_xhr_complete b && String.eqb a b)
            && no_repeat ((b :: rest) ++ [n])).
    rewrite IH.
    change (no_repeat (a :: b :: rest))
      with (negb (is_xhr_complete b && String.eqb a b) && no_repeat (b :: rest)).
    change (last (a :: b :: rest)) with (last (b :: rest)).
    rewrite andb_assoc. reflexivity.
Qed.



Lemma preventDuplicateXhrEvents_Some (n : string) (st st' : State)
      (t' : EventTuple) :
  preventDuplicateXhrEvents n st = (st', Some t') ->
  exists es t,
    getCurrentEventStream st = Some (es ++ [t])
    /\ is_xhr_complete n = true
    /\ ev_name t = n
    /\ t' = tuple_set t REPEAT_COUNT_INDEX (next_count t)
    /\ st' = setCurrentEventStream (es ++ [t']) st.
Proof.
  unfold preventDuplicateXhrEvents.
  destruct (getCurrentEventStream st) as [stream|] eqn:Hes; [|discriminate].
  destruct (is_xhr_complete n) eqn:Hx; [|discriminate].
  rewrite last_lookup_sub.
  destruct (last stream) as [t|] eqn:Hl; [|discriminate].
  apply last_Some in Hl. destruct Hl as [es ->].
  destruct (String.eqb (ev_name t) n) eqn:Hn; [|discriminate].
  apply String.eqb_eq in Hn. rewrite insert_last_snoc.
  intros Heq. injection Heq as <- <-.
  exists es, t. auto.
Qed.

Lemma preventDuplicateXhrEvents_None (n : string) (st st' : State) :
  preventDuplicateXhrEvents n st = (st', None) -> st' = st.
Proof.
  unfold preventDuplicateXhrEvents.
  destruct (getCurrentEventStream st) as [stream|]; [|congruence].
  destruct (is_xhr_complete n); [|congruence].
  destruct (stream !! (length stream - 1)%nat) as [t|]; [|congruence].
  destruct (String.eqb (ev_name t) n); [discriminate | congruence].
Qed.

Lemma updateStartTime_self (newStartTime : TimeValue) (st : State) :
  samplingEnabled (fst (updateStartTime newStartTime st))
  = samplingEnabled (fst st)
  /\ samplesBeingStored (fst (updateStartTime newStartTime st))
     = samplesBeingStored (fst st)
  /\ mediatorToKPINameTable (fst (updateStartTime newStartTime st))
     = mediatorToKPINameTable (fst st).
Proof.
  unfold updateStartTime.
  destruct (getCurrentEventStream st) as [[|e es]|]; simpl; auto.
  match goal with
  | |- context [setCurrentEventStream ?l st] =>
      destruct (setCurrentEventStream_self l st) as (-> & -> & _ & ->)
  end.
  auto.
Qed.

Lemma preventDuplicateXhrEvents_None_last (n : string) (st st' : State)
      (es : list EventTuple) :
  preventDuplicateXhrEvents n st = (st', None) ->
  getCurrentEventStream st = Some es ->
  match last (map ev_name es) with
  | Some a => negb (is_xhr_complete n && String.eqb a n)
  | None => true
  end = true.
Proof.
  unfold preventDuplicateXhrEvents. intros Hp Hes. rewrite Hes in Hp.
  change (map ev_name es) with (ev_name <$> es). rewrite fmap_last.
  rewrite last_lookup_sub in Hp.
  destruct (last es) as [t|]; simpl; [|reflexivity].
  destruct (is_xhr_complete n); [|reflexivity].
  destruct (String.eqb (ev_name t) n); [discriminate | reflexivity].
Qed.

(** What [addEvent] does to the state: after the correction of the start
    time, if the message asks for one, it either leaves the state alone
    or writes back the current stream, with its last tuple collapsed or
    with a new tuple at its end; a stream without repetition stays
    so. *)
Lemma addEvent_shape (msg : string) (data : Data) (now : Z) (st : State) :
  let st0 := if String.eqb msg "start_time"
             then updateStartTime (data_time (data_or_empty data)) st
             else st in
  fst (addEvent msg data now st) = st0
  \/ exists es es',
      getCurrentEventStream st0 = Some es
      /\ fst (addEvent msg data now st) = setCurrentEventStream es' st0
      /\ (no_repeat (map ev_name es) = true ->
          no_repeat (map ev_name es') = true).
Proof.
  intros st0. unfold addEvent. fold st0. clearbody st0.
  destruct (sampling_is_false (fst st0)); [left; reflexivity|].
  destruct (getKPIName _ msg _) as [n|]; [|left; reflexivity].
  destruct (negb (truthy_string n)); [left; reflexivity|].
  destruct (preventDuplicateXhrEvents n st0) as [st1 [t'|]] eqn:Hp.
  - apply preventDuplicateXhrEvents_Some in Hp.
    destruct Hp as (es & t & Hes & _ & Hn & -> & ->).
    right. exists (es ++ [t]), (es ++ [tuple_set t REPEAT_COUNT_INDEX (next_count t)]).
    split; [exact Hes|]. split; [reflexivity|].
    rewrite !map_app. exact (fun Hok => Hok).
  - pose proof (preventDuplicateXhrEvents_None_last n st0 st1) as Hlast.
    specialize (fun es => Hlast es Hp).
    apply preventDuplicateXhrEvents_None in Hp. subst st1.
    destruct (getCurrentEventStream st0) as [es|] eqn:Hes;
      [|left; reflexivity].
    right. eexists es, _. split; [reflexivity|]. split; [reflexivity|].
    intros Hok. rewrite map_app. simpl. rewrite no_repeat_snoc, Hok. simpl.
    exact (Hlast es eq_refl).
Qed.

(** [addEvent] never touches the table or the sampling flags. *)
Lemma addEvent_self (msg : string) (data : Data) (now : Z) (st : State) :
  samplingEnabled (fst (fst (addEvent msg data now st)))
  = samplingEnabled (fst st)
  /\ samplesBeingStored (fst (fst (addEvent msg data now st)))
     = samplesBeingStored (fst st)
  /\ mediatorToKPINameTable (fst (fst (addEvent msg data now st)))
     = mediatorToKPINameTable (fst st).
Proof.
  pose proof (addEvent_shape msg data now st) as Hshape. cbv zeta in Hshape.
  set (st0 := if String.eqb msg "start_time"
              then updateStartTime (data_time (data_or_empty data)) st
              else st) in Hshape.
  assert (H0 : samplingEnabled (fst st0) = samplingEnabled (fst st)
               /\ samplesBeingStored (fst st0) = samplesBeingStored (fst st)
               /\ mediatorToKPINameTable (fst st0)
                  = mediatorToKPINameTable (fst st)).
  { subst st0. destruct (String.eqb msg "start_time"); auto.
    apply updateStartTime_self. }
  destruct H0 as (<- & <- & <-).
  destruct Hshape as [-> | (es & es' & _ & -> & _)]; [auto|].
  destruct (setCurrentEventStream_self es' st0) as (-> & -> & _ & ->). auto.
Qed.



(** ** Streams without repetition are kept by every operation *)

Section StreamInvariant.

Context `{Host}.




Lemma map_name_shift (delta : num) (es : list EventTuple) :
  map ev_name (map (shift_offset delta) es) = map ev_name es.
Proof. rewrite map_map. reflexivity. Qed.








End StreamInvariant.

Section DeduplicationTheorems.

Context `{Host}.








(** C10: when [preventDuplicateXhrEvents] collapses a completion into
    the last tuple, the count is cell 3 of that tuple, the cells 0 to 2
    are what they were, and the array has at least four cells; a tuple
    without a duration thus has a hole at index 2 and is
    [[name, offset, <hole>, count]], never [[name, offset, count]]. *)
Theorem repeat_count_at_index_three (n : string) (st st' : State)
        (t' : EventTuple) :
  preventDuplicateXhrEvents n st = (st', Some t') ->
  exists es lastEvent,
    getCurrentEventStream st = Some (es ++ [lastEvent])
    /\ getCurrentEventStream st' = Some (es ++ [t'])
    /\ cells t' !! 0%nat = Some (CStr n)
    /\ cells t' !! 1%nat = Some (CNum (ev_offset lastEvent))
    /\ cells t' !! REPEAT_COUNT_INDEX
       = Some (CNum (Num (next_count lastEvent)))
    /\ (4 <= length (cells t'))%nat
    /\ cells t' <> [CStr n; CNum (ev_offset lastEvent);
                    CNum (Num (next_count lastEvent))]
    /\ (tuple_get lastEvent 2 = None -> cells t' !! 2%nat = Some CHole)
    /\ (forall d, tuple_get lastEvent 2 = Some d ->
                  cells t' !! 2%nat = Some (CNum (Num d)))
    /\ (ev_rest lastEvent = [] ->
        cells t' = [CStr n; CNum (ev_offset lastEvent); CHole;
                    CNum (Num 2)]).
Proof.
  intros Hp. apply preventDuplicateXhrEvents_Some in Hp.
  destruct Hp as (es & t & Hes & Hx & Hn & -> & ->).
  exists es, t. split; [exact Hes|].
  split.
  { apply getCurrentEventStream_set.
    exact (getCurrentEventStream_Some _ _ Hes). }
  unfold cells, tuple_set, tuple_get, next_count, tuple_get.
  cbn [ev_name ev_offset ev_rest]. rewrite Hn.
  change (REPEAT_COUNT_INDEX - 2)%nat with 1%nat.
  change REPEAT_COUNT_INDEX with 3%nat.
  destruct (ev_rest t) as [|d [|c rest]]; simpl;
    repeat split; try reflexivity; try lia; try discriminate;
    try (intros Hd; rewrite Hd; reflexivity);
    try (intros d' Hd; rewrite Hd; reflexivity).
Qed.

End DeduplicationTheorems.




(** The second completion of [GET /wsapi/list_emails] on the first page
    load: the collapsed tuple has four cells. *)
Lemma repeat_count_at_index_three_witness :
  let t' := {| ev_name := "xhr_complete.GET/wsapi/list_emails";
               ev_offset := Num 10;
               ev_rest := [None; Some 2] |} in
  snd (preventDuplicateXhrEvents "xhr_complete.GET/wsapi/list_emails"
                                 (recorded completion_1 fresh_state))
  = Some t'
  /\ (4 <= length (cells t'))%nat
  /\ cells t' !! 0%nat = Some (CStr "xhr_complete.GET/wsapi/list_emails").
Proof.
  intros t'. split; [reflexivity|].
  destruct (repeat_count_at_index_three
              "xhr_complete.GET/wsapi/list_emails"
              (recorded completion_1 fresh_state)
              (fst (preventDuplicateXhrEvents
                      "xhr_complete.GET/wsapi/list_emails"
                      (recorded completion_1 fresh_state)))
              t' eq_refl)
    as (es & lastEvent & _ & _ & H0 & _ & _ & Hlen & _).
  split; [exact Hlen | exact H0].
Defined.

(** ** Continuation *)

Section Continuation.

Context `{Host}.

(** With sampling switched off [addEvent] records nothing: at most the
    start time changes. *)
Lemma addEvent_disabled (msg : string) (data : Data) (now : Z) (st : State) :
  samplingEnabled (fst st) = Some false ->
  snd (addEvent msg data now st) = None
  /\ snd (fst (addEvent msg data now st)) = snd st
  /\ samplingEnabled (fst (fst (addEvent msg data now st))) = Some false
  /\ initialEventStream (fst (fst (addEvent msg data now st)))
     = initialEventStream (fst st)
  /\ initialKPIs (fst (fst (addEvent msg data now st)))
     = initialKPIs (fst st).
Proof.
  destruct st as [s m]. simpl. intros He.
  unfold addEvent, updateStartTime, getCurrentEventStream, sampling_is_false.
  simpl. rewrite He.
  destruct (String.eqb msg "start_time"); simpl; rewrite He; auto.
Qed.

Lemma recorded_all_disabled (events : list Event) (st : State) :
  samplingEnabled (fst st) = Some false ->
  snd (recorded_all events st) = snd st
  /\ samplingEnabled (fst (recorded_all events st)) = Some false
  /\ initialEventStream (fst (recorded_all events st))
     = initialEventStream (fst st)
  /\ initialKPIs (fst (recorded_all events st)) = initialKPIs (fst st).
Proof.
  revert st. induction events as [|[[msg data] now] events IH];
    intros st He; [simpl; auto|].
  destruct (addEvent_disabled msg data now st He) as (_ & Hm & He' & Hi & Hk).
  change (recorded_all ((msg, data, now) :: events) st)
    with (recorded_all events (fst (addEvent msg data now st))).
  destruct (IH _ He') as (-> & -> & -> & ->). auto.
Qed.

(** C9: a continuation start over a store with a current record resumes
    with sampling on, storing durably, the start time parsed from the
    [local_timestamp] of the record; the store is not called (nothing
    is published) and no callback is registered (no decision will be
    made).  Over a store without a current record, sampling is off,
    the module does not listen to the mediator, and whatever messages
    are passed to [addEvent] afterwards, no tuple is returned, no stream
    exists and the store is not written. *)
Theorem continuation_start (options : Options) (now : Z) (m : Model) :
  opt_continuation options = true ->
  let w := start options now m in
  match model_getCurrent m with
  | Some lastSessionsKPIs =>
      samplingEnabled (fst (state w)) = Some true
      /\ samplesBeingStored (fst (state w)) = true
      /\ startTime (fst (state w))
         = TNumber (Date_parse (fields lastSessionsKPIs !! "local_timestamp"))
      /\ snd (state w) = m
      /\ pending w = []
      /\ getCurrentKPIs (state w) = Some lastSessionsKPIs
      /\ getCurrentEventStream (state w)
         = Some (default [] (event_stream lastSessionsKPIs))
  | None =>
      samplingEnabled (fst (state w)) = Some false
      /\ snd (state w) = m
      /\ pending w = []
      /\ subscribed w = false
      /\ forall events,
          let st' := recorded_all events (state w) in
          samplingEnabled (fst st') = Some false
          /\ snd st' = m
          /\ getCurrentEventStream st' = None
          /\ initialEventStream (fst st') = None
          /\ forall msg data now', snd (addEvent msg data now' st') = None
  end.
Proof.
  intros Hc. unfold start. rewrite Hc.
  destruct (model_getCurrent m) as [lastSessionsKPIs|] eqn:Hcur; simpl.
  - rewrite Hcur. simpl. repeat split; reflexivity.
  - repeat split; try reflexivity;
      match goal with
      | |- context [recorded_all ?evs ?st] =>
          destruct (recorded_all_disabled evs st eq_refl)
            as (Hm & He & Hi & Hk)
      end; simpl in *; auto.
    + destruct (recorded_all events _) as [s' m']. simpl in *.
      unfold sampling_is_false. rewrite He. reflexivity.
    + intros msg data now'.
      exact (proj1 (addEvent_disabled msg data now' _ He)).
Qed.

End Continuation.

(** The page comes back with the hash "#AUTH_RETURN", over a store with
    a record and over an empty store. *)
Lemma continuation_start_witness :
  continuation "#AUTH_RETURN" = true
  /\ (let w := start_js (H := sample_host) "#AUTH_RETURN" 5000 stored_model in
      samplingEnabled (fst (state w)) = Some true
      /\ samplesBeingStored (fst (state w)) = true
      /\ startTime (fst (state w))
         = TNumber (@Date_parse sample_host
                               (Some (KVStr "Thu Jan 17 2013 17:16:12")))
      /\ snd (state w) = stored_model
      /\ pending w = []
      /\ getCurrentKPIs (state w) = Some stored_record
      /\ getCurrentEventStream (state w)
         = Some (default [] (event_stream stored_record)))
  /\ (let w := start_js (H := sample_host) "#AUTH_RETURN" 5000 empty_model in
      samplingEnabled (fst (state w)) = Some false
      /\ snd (state w) = empty_model
      /\ pending w = []
      /\ subscribed w = false).
Proof.
  split; [reflexivity|]. split.
  - exact (continuation_start
             (H := sample_host)
             {| opt_samplingEnabled := None; opt_continuation := true |}
             5000 stored_model eq_refl).
  - destruct (continuation_start
                (H := sample_host)
                {| opt_samplingEnabled := None; opt_continuation := true |}
                5000 empty_model eq_refl) as (H1 & H2 & H3 & H4 & _).
    repeat split; assumption.
Defined.

(** ** Publishing before sampling *)

Section PublishBeforeSampling.

Context `{Host}.

Lemma pushes_app (cs cs' : list ModelCall) :
  pushes (cs ++ cs') = pushes cs ++ pushes cs'.
Proof.
  induction cs as [|c cs IH]; [reflexivity|].
  destruct c; simpl; rewrite IH; reflexivity.
Qed.

Lemma pushes_setCurrentEventStream (es : list EventTuple) (st : State) :
  pushes (calls (snd (setCurrentEventStream es st))) = pushes (calls (snd st)).
Proof.
  destruct st as [s m]. unfold setCurrentEventStream.
  destruct (samplesBeingStored s); simpl; [|reflexivity].
  rewrite pushes_app. simpl. apply app_nil_r.
Qed.

Lemma pushes_updateStartTime (t : TimeValue) (st : State) :
  pushes (calls (snd (updateStartTime t st))) = pushes (calls (snd st)).
Proof.
  unfold updateStartTime.
  destruct (getCurrentEventStream st) as [[|e es]|]; simpl; try reflexivity.
  apply pushes_setCurrentEventStream.
Qed.

Lemma pushes_addEvent (msg : string) (data : Data) (now : Z) (st : State) :
  pushes (calls (snd (fst (addEvent msg data now st))))
  = pushes (calls (snd st)).
Proof.
  pose proof (addEvent_shape msg data now st) as Hshape. cbv zeta in Hshape.
  set (st0 := if String.eqb msg "start_time"
              then updateStartTime (data_time (data_or_empty data)) st
              else st) in Hshape.
  assert (H0 : pushes (calls (snd st0)) = pushes (calls (snd st))).
  { subst st0. destruct (String.eqb msg "start_time"); [|reflexivity].
    apply pushes_updateStartTime. }
  rewrite <- H0.
  destruct Hshape as [-> | (es & es' & _ & -> & _)]; [reflexivity|].
  apply pushes_setCurrentEventStream.
Qed.

Lemma pushes_addKPIData (kpiData : KPIs) (st : State) :
  pushes (calls (snd (addKPIData kpiData st))) = pushes (calls (snd st)).
Proof.
  unfold addKPIData.
  destruct (getCurrentKPIs st) as [cur|]; [|reflexivity].
  destruct st as [s m]. unfold setCurrentKPIs.
  destruct (samplesBeingStored s); simpl; [|reflexivity].
  rewrite pushes_app. simpl. apply app_nil_r.
Qed.

(** Only the step in which the context callback runs can push. *)
Lemma only_context_step_pushes (w w' : World) (l : Label) :
  step w l w' ->
  (forall context random win, l <> LContext context random win) ->
  pushes (calls (snd (state w'))) = pushes (calls (snd (state w))).
Proof.
  intros Hstep Hl. destruct Hstep; simpl.
  - apply pushes_addEvent.
  - apply pushes_addKPIData.
  - reflexivity.
  - exfalso. exact (Hl _ _ _ eq_refl).
  - unfold publishCurrent. destruct (state w) as [s m]. simpl.
    rewrite pushes_app. simpl. apply app_nil_r.
  - reflexivity.
  - reflexivity.
  - reflexivity.
  - unfold start. destruct (opt_continuation options).
    + destruct (model_getCurrent (snd (state w))); reflexivity.
    + simpl. rewrite pushes_app. simpl. apply app_nil_r.
Qed.

Lemma phase_snoc (trace : list Label) (l : Label) :
  phase (trace ++ [l]) = phase_step (phase trace) l.
Proof. unfold phase. rewrite fold_left_app. reflexivity. Qed.

Lemma no_start_snoc (trace : list Label) (l : Label) :
  no_start trace -> is_start l = false -> no_start (trace ++ [l]).
Proof.
  unfold no_start. intros Ht Hl. rewrite forallb_app, Ht. simpl.
  rewrite Hl. reflexivity.
Qed.

(** A phase other than [Idle] is owed to a publication started on the
    current page. *)
Lemma phase_initiated (trace : list Label) :
  phase trace <> Idle ->
  exists a init b,
    trace = a ++ init :: b /\ initiates init /\ no_start b.
Proof.
  induction trace as [|l trace IH] using rev_ind; [intros Hp; contradiction Hp; reflexivity|].
  rewrite phase_snoc. intros Hp.
  assert (Hkeep : phase trace <> Idle -> is_start l = false ->
                  exists a init b,
                    trace ++ [l] = a ++ init :: b
                    /\ initiates init /\ no_start b).
  { intros Hi Hl. destruct (IH Hi) as (a & init & b & -> & Hinit & Hb).
    exists a, init, (b ++ [l]). rewrite <- app_assoc.
    split; [reflexivity|]. split; [exact Hinit|].
    apply no_start_snoc; assumption. }
  destruct l; simpl in Hp; try (apply Hkeep; [exact Hp | reflexivity]).
  - apply Hkeep; [|reflexivity].
    destruct (phase trace); [contradiction Hp; reflexivity | discriminate..].
  - exists trace, (LPublishCurrent done), []. repeat split; reflexivity.
  - destruct (opt_continuation options) eqn:Hc;
      [contradiction Hp; reflexivity|].
    exists trace, (LStart options now), []. repeat split. exact Hc.
Qed.

(** The phase [Completed] is owed to a publication started and
    completed on the current page. *)
Lemma phase_completed (trace : list Label) :
  phase trace = Completed ->
  exists a init b status c,
    trace = a ++ init :: b ++ LPublishDone status :: c
    /\ initiates init /\ no_start b /\ no_start c.
Proof.
  induction trace as [|l trace IH] using rev_ind; [discriminate|].
  rewrite phase_snoc. intros Hp.
  assert (Hkeep : phase trace = Completed -> is_start l = false ->
                  exists a init b status c,
                    trace ++ [l] = a ++ init :: b ++ LPublishDone status :: c
                    /\ initiates init /\ no_start b /\ no_start c).
  { intros Hi Hl.
    destruct (IH Hi) as (a & init & b & status & c & -> & Hinit & Hb & Hc).
    exists a, init, b, status, (c ++ [l]).
    split; [|split; [exact Hinit | split; [exact Hb|]]].
    - rewrite <- app_assoc. simpl. rewrite <- app_assoc. reflexivity.
    - apply no_start_snoc; assumption. }
  destruct l; simpl in Hp; try (apply Hkeep; [exact Hp | reflexivity]).
  - assert (Hi : phase trace <> Idle)
      by (destruct (phase trace); [discriminate Hp | discriminate..]).
    destruct (phase_initiated trace Hi) as (a & init & b & -> & Hinit & Hb).
    exists a, init, b, status, [].
    split; [|split; [exact Hinit | split; [exact Hb | reflexivity]]].
    rewrite <- app_assoc. reflexivity.
  - apply Hkeep; [|reflexivity].
    destruct (phase trace); [discriminate Hp | discriminate Hp | reflexivity].
  - destruct (opt_continuation options); discriminate Hp.
Qed.

End PublishBeforeSampling.

Section PublishBeforeSamplingTheorem.

Context `{Host}.

(** A callback in flight is owed to a publication of the current page:
    the one given to the store to a started publication, the one given
    to [user.withContext] to a completed one. *)
Lemma pending_phase (trace : list Label) (w : World) :
  run trace w ->
  (forall done, PendingPublish done ∈ pending w -> phase trace <> Idle)
  /\ (forall done status,
         PendingContext done status ∈ pending w -> phase trace = Completed).
Proof.
  induction 1 as [options now | trace w l w' _ [IHp IHc] Hstep].
  - unfold start, phase. simpl.
    destruct (opt_continuation options); simpl.
    + split; intros; exfalso; eapply not_elem_of_nil; eassumption.
    + split; [discriminate|].
      intros done status Hin. apply list_elem_of_singleton in Hin.
      discriminate Hin.
  - rewrite phase_snoc.
    destruct Hstep as [w msg data now | w kpiData Hkd
                       | w before after done status Hpend
                       | w before after done status context random win Hpend
                       | w done | w table | w | w | w options now];
      simpl.
    + split; assumption.
    + split; assumption.
    + assert (Hi : phase trace <> Idle).
      { apply (IHp done). rewrite Hpend.
        apply elem_of_app. right. apply elem_of_cons. left. reflexivity. }
      split.
      * intros done' _. destruct (phase trace); [contradiction Hi; reflexivity | discriminate..].
      * intros done' status' _.
        destruct (phase trace); [contradiction Hi; reflexivity | reflexivity..].
    + assert (Hsub : forall p, p ∈ before ++ after -> p ∈ pending w).
      { intros p Hin. rewrite Hpend. apply elem_of_app.
        apply elem_of_app in Hin. destruct Hin as [Hin | Hin];
          [left; exact Hin | right; apply elem_of_cons; right; exact Hin]. }
      unfold context_callback. simpl.
      destruct (beginSampling context random win (state w)); simpl;
        split; intros; [eapply IHp | eapply IHc | eapply IHp | eapply IHc];
        apply Hsub; eassumption.
    + unfold publishCurrent. destruct (state w) as [s m]. simpl. split.
      * intros done' _. destruct (phase trace); discriminate.
      * intros done' status Hin. apply elem_of_app in Hin.
        destruct Hin as [Hin | Hin].
        -- rewrite (IHc _ _ Hin). reflexivity.
        -- apply list_elem_of_singleton in Hin. discriminate Hin.
    + split; assumption.
    + split; assumption.
    + split; assumption.
    + unfold start. destruct (opt_continuation options); simpl.
      * destruct (model_getCurrent (snd (state w))); simpl;
          split; intros; exfalso; eapply not_elem_of_nil; eassumption.
      * split; [discriminate|].
        intros done status Hin. apply list_elem_of_singleton in Hin.
        discriminate Hin.
Qed.

(** The step in which [beginSampling] runs comes after the completion
    of a publication. *)
Lemma context_step_after_completion (trace : list Label) (w : World) :
  run trace w ->
  forall pre context random win post,
    trace = pre ++ LContext context random win :: post ->
    phase pre = Completed.
Proof.
  induction 1 as [options now | trace w l w' Hrun IH Hstep];
    intros pre context random win post Heq.
  - destruct pre as [|x [|y pre]]; discriminate Heq.
  - destruct post as [|x post _] using rev_ind.
    + apply app_inj_tail in Heq. destruct Heq as [-> ->].
      inversion Hstep as [| | | w0 before after done status c r wn Hpend
                          | | | | |]; subst.
      apply (proj2 (pending_phase _ _ Hrun) done status).
      rewrite Hpend. apply elem_of_app. right. apply elem_of_cons.
      left. reflexivity.
    + change (pre ++ LContext context random win :: post ++ [x])
        with (pre ++ (LContext context random win :: post) ++ [x]) in Heq.
      rewrite app_assoc in Heq. apply app_inj_tail in Heq.
      destruct Heq as [Heq _].
      exact (IH pre context random win post Heq).
Qed.

(** C8: a start that is not a continuation calls [model.publishCurrent]
    on the store as it finds it, whatever the options, and neither
    decides on sampling nor writes a record itself; its completion can
    always go ahead and empties the slot.  In every execution the step
    in which [beginSampling] runs is preceded, on the same page, by the
    completion of a publication that was started on that page; and no
    other step pushes a record to the store. *)
Theorem publish_previous_before_sampling :
  (forall options now m,
      opt_continuation options = false ->
      let w := start options now m in
      calls (snd (state w)) = calls m ++ [CallPublishCurrent]
      /\ current (snd (state w)) = current m
      /\ pending w = [PendingPublish false]
      /\ samplingEnabled (fst (state w)) = opt_samplingEnabled options
      /\ samplesBeingStored (fst (state w)) = false
      /\ forall status,
          exists w', step w (LPublishDone status) w'
                     /\ current (snd (state w')) = None
                     /\ pending w' = [PendingContext false status])
  /\ (forall trace w pre context random win post,
         run trace w ->
         trace = pre ++ LContext context random win :: post ->
         exists a init b status c,
           pre = a ++ init :: b ++ LPublishDone status :: c
           /\ initiates init /\ no_start b /\ no_start c)
  /\ (forall w l w',
         step w l w' ->
         (forall context random win, l <> LContext context random win) ->
         pushes (calls (snd (state w'))) = pushes (calls (snd (state w)))).
Proof.
  split; [|split].
  - intros options now m Hc w. subst w. unfold start. rewrite Hc. simpl.
    repeat split.
    intros status. eexists. split.
    + apply (step_publish_done _ [] [] false status). reflexivity.
    + split; reflexivity.
  - intros trace w pre context random win post Hrun Heq.
    apply phase_completed.
    exact (context_step_after_completion trace w Hrun _ _ _ _ _ Heq).
  - intros w l w'. apply only_context_step_pushes.
Qed.

End PublishBeforeSamplingTheorem.

(** A first page load, the completion of its publication and the
    arrival of the session context. *)
Lemma publish_previous_before_sampling_witness :
  pending first_load = [PendingPublish false]
  /\ calls (snd (state first_load)) = [CallPublishCurrent]
  /\ exists a init b status c,
      [LStart {| opt_samplingEnabled := None; opt_continuation := false |} 1000;
       LPublishDone true]
      = a ++ init :: b ++ LPublishDone status :: c
      /\ initiates init.
Proof.
  destruct (publish_previous_before_sampling (H := sample_host))
    as (Hstart & Horder & _).
  destruct (Hstart {| opt_samplingEnabled := None; opt_continuation := false |}
                   1000 empty_model eq_refl)
    as (Hcalls & _ & Hpend & _ & _ & Hdone).
  split; [exact Hpend|]. split; [exact Hcalls|].
  destruct (Hdone true) as (w1 & Hstep1 & _ & Hpend1).
  assert (Hstep2 : step (H := sample_host) w1
                        (LContext sample_context (1 # 2) sample_window)
                        (context_callback (H := sample_host) false true
                           sample_context (1 # 2)
                           sample_window (with_pending ([] ++ []) w1))).
  { apply (step_context (H := sample_host) w1 [] [] false true). exact Hpend1. }
  destruct (Horder
              (([LStart {| opt_samplingEnabled := None;
                           opt_continuation := false |} 1000]
                  ++ [LPublishDone true])
                 ++ [LContext sample_context (1 # 2) sample_window])
              _
              [LStart {| opt_samplingEnabled := None;
                         opt_continuation := false |} 1000;
               LPublishDone true]
              sample_context (1 # 2) sample_window []
              (run_step _ _ _ _
                 (run_step _ _ _ _ (run_start _ _) Hstep1) Hstep2)
              eq_refl)
    as (a & init & b & status & c & Heq & Hinit & _).
  exists a, init, b, status, c. split; assumption.
Defined.

(** * Further properties *)

(** ** The names of the built-in table *)

Lemma split_head_app (c : ascii) (p q : string) :
  ~ In c (list_ascii_of_string p) -> split_head c (p +:+ String c q) = p.
Proof.
  induction p as [|a p IH]; simpl; intros Hp.
  - rewrite Ascii.eqb_refl. reflexivity.
  - destruct (Ascii.eqb a c) eqn:E.
    + apply Ascii.eqb_eq in E. tauto.
    + change (String a (split_head c (p +:+ String c q)) = String a p).
      rewrite IH by tauto. reflexivity.
Qed.

Lemma split_head_whole (c : ascii) (p : string) :
  ~ In c (list_ascii_of_string p) -> split_head c p = p.
Proof.
  induction p as [|a p IH]; simpl; intros Hp; [reflexivity|].
  destruct (Ascii.eqb a c) eqn:E.
  - apply Ascii.eqb_eq in E. tauto.
  - rewrite IH by tauto. reflexivity.
Qed.

Section TableProperties.

Context `{Host}.

(** Whatever the payload, the name of an error screen starts with
    "screen.error.". *)
Lemma parseErrorScreen_prefix (msg : string) (data : Payload) :
  exists rest, parseErrorScreen msg data = Some ("screen.error." +:+ rest).
Proof. unfold parseErrorScreen. eexists. reflexivity. Qed.

(** X1: an error screen without an action is named by the status of its
    network request alone: "screen.error.unknown" when there is no status
    or the status is at most 399, "screen.error." followed by the status
    when it is 400 or more; two different statuses from 400 on never
    share a name. *)
Theorem error_screen_status_threshold (msg : string) (data : Payload) :
  p_action data = None ->
  ((forall s, p_network data ≫= net_status = Some s -> s <= 399) ->
   parseErrorScreen msg data = Some "screen.error.unknown")
  /\ (forall s,
         p_network data ≫= net_status = Some s -> 400 <= s ->
         parseErrorScreen msg data = Some ("screen.error." +:+ pretty s)
         /\ forall msg' data' s',
             p_action data' = None ->
             p_network data' ≫= net_status = Some s' -> 400 <= s' ->
             parseErrorScreen msg' data' = parseErrorScreen msg data ->
             s' = s).
Proof.
  intros Hact.
  assert (Hhigh : forall m d s,
             p_action d = None ->
             p_network d ≫= net_status = Some s -> 400 <= s ->
             parseErrorScreen m d = Some ("screen.error." +:+ pretty s)).
  { intros m d s Ha Hs Hge. unfold parseErrorScreen. rewrite Ha.
    destruct (p_network d) as [net|]; [|discriminate Hs].
    simpl in Hs. rewrite Hs.
    destruct (399 <? s) eqn:E; [reflexivity | apply Z.ltb_ge in E; lia]. }
  split.
  - intros Hlow. unfold parseErrorScreen. rewrite Hact.
    destruct (p_network data) as [net|]; [|reflexivity].
    destruct (net_status net) as [s|] eqn:Hs; [|reflexivity].
    specialize (Hlow s). simpl in Hlow. rewrite Hs in Hlow.
    specialize (Hlow eq_refl).
    destruct (399 <? s) eqn:E; [apply Z.ltb_lt in E; lia | reflexivity].
  - intros s Hs Hge. split; [exact (Hhigh msg data s Hact Hs Hge)|].
    intros msg' data' s' Hact' Hs' Hge' Heq.
    rewrite (Hhigh msg data s Hact Hs Hge) in Heq.
    rewrite (Hhigh msg' data' s' Hact' Hs' Hge') in Heq.
    injection Heq as Heq. exact (inj pretty _ _ Heq).
Qed.

(** X2: the kind of an error screen with an action is the key of the
    action in the table of known errors; without a key (or with an empty
    one) it is the title of the action; without a title either it is
    "unknown".  A status of 400 or more follows the kind after a dot. *)
Theorem error_screen_kind (msg : string) (data : Payload) (act : ErrorAction) :
  p_action data = Some act ->
  exists kind,
    kind <> ""
    /\ (forall key, errors_keyOf act = Some key -> key <> "" -> kind = key)
    /\ (or_string (errors_keyOf act) None = None ->
        forall title, action_title act = Some title -> title <> "" ->
                      kind = title)
    /\ (or_string (errors_keyOf act) (action_title act) = None ->
        kind = "unknown")
    /\ ((forall s, p_network data ≫= net_status = Some s -> s <= 399) ->
        parseErrorScreen msg data = Some ("screen.error." +:+ kind))
    /\ (forall s,
           p_network data ≫= net_status = Some s -> 400 <= s ->
           parseErrorScreen msg data
           = Some ("screen.error." +:+ kind +:+ "." +:+ pretty s)).
Proof.
  intros Hact. unfold parseErrorScreen. rewrite Hact.
  assert (Hkind : exists kind,
             or_string (or_string (errors_keyOf act) (action_title act))
                       (Some "unknown") = Some kind
             /\ kind <> ""
             /\ (forall key, errors_keyOf act = Some key -> key <> "" ->
                             kind = key)
             /\ (or_string (errors_keyOf act) None = None ->
                 forall title, action_title act = Some title -> title <> "" ->
                               kind = title)
             /\ (or_string (errors_keyOf act) (action_title act) = None ->
                 kind = "unknown")).
  { unfold or_string.
    destruct (errors_keyOf act) as [[|c key]|];
      destruct (action_title act) as [[|c' title]|]; simpl;
      eexists; (split; [reflexivity|]);
      repeat split; try discriminate; try congruence;
      intros; try congruence; try discriminate. }
  destruct Hkind as (kind & -> & Hne & Hkey & Htitle & Hunknown).
  exists kind. split; [exact Hne|]. split; [exact Hkey|].
  split; [exact Htitle|]. split; [exact Hunknown|]. split.
  - intros Hlow.
    destruct (p_network data) as [net|]; [|reflexivity].
    destruct (net_status net) as [s|] eqn:Hs; [|reflexivity].
    specialize (Hlow s). simpl in Hlow. rewrite Hs in Hlow.
    specialize (Hlow eq_refl).
    destruct (399 <? s) eqn:E; [apply Z.ltb_lt in E; lia | reflexivity].
  - intros s Hs Hge.
    destruct (p_network data) as [net|]; [|discriminate Hs].
    simpl in Hs. rewrite Hs.
    destruct (399 <? s) eqn:E; [reflexivity | apply Z.ltb_ge in E; lia].
Qed.

(** The entries of the built-in table, one by one. *)
Ltac table_cases Hlookup :=
  unfold MediatorToKPINameTable in Hlookup;
  apply elem_of_list_to_map_2 in Hlookup;
  repeat (apply elem_of_cons in Hlookup;
          destruct Hlookup as [Hlookup | Hlookup];
          [injection Hlookup as -> -> |]);
  try (apply elem_of_nil in Hlookup; contradiction).

(** A message of the built-in table always has a name, which is not
    empty, and only "xhr_complete" can have a name of the completion
    pattern. *)
Lemma table_names (msg : string) (data : Payload) :
  is_Some (MediatorToKPINameTable !! msg) ->
  exists n,
    getKPIName MediatorToKPINameTable msg data = Some n
    /\ n <> ""
    /\ (is_xhr_complete n = true -> msg = "xhr_complete").
Proof.
  intros [info Hinfo]. unfold getKPIName. rewrite Hinfo.
  table_cases Hinfo;
    try (eexists; split; [reflexivity|]; split; discriminate).
  assert (Hr : removeGetData "xhr_complete" data = Some "xhr.malformed_report"
               \/ exists rest,
                   removeGetData "xhr_complete" data
                   = Some ("xhr_complete" +:+ rest)).
    { unfold removeGetData.
    destruct (p_network data) as [net|]; [|left; reflexivity].
    destruct (net_type net) as [ty|]; [|left; reflexivity].
    destruct (net_url net) as [url|]; [|left; reflexivity].
    destruct (truthy_string "xhr_complete" && truthy_string ty
              && truthy_string url); [right | left; reflexivity].
    eexists. reflexivity. }
  destruct Hr as [-> | [rest ->]];
    eexists; (split; [reflexivity|]); split; try discriminate; reflexivity.
Qed.

(** X3: translation with the built-in table never drops a message that
    has an entry: the name is defined and not empty, whatever the
    payload; and the name has the form of a network completion
    ("xhr_complete...") only when the message is "xhr_complete". *)
Theorem built_in_names_defined (msg : string) (data : Payload) (info : KPIInfo) :
  MediatorToKPINameTable !! msg = Some info ->
  exists n,
    getKPIName MediatorToKPINameTable msg data = Some n
    /\ n <> ""
    /\ (is_xhr_complete n = true -> msg = "xhr_complete").
Proof. intros Hinfo. apply table_names. exists info. exact Hinfo. Qed.

(** X4: with the built-in table, a message that has an entry and is not
    "xhr_complete" always adds one tuple to the current stream, also
    when it repeats the message before it: only network completions are
    collapsed. *)
Theorem mapped_message_appends (st : State) (msg : string) (data : Data)
        (now : Z) (es : list EventTuple) :
  mediatorToKPINameTable (fst st) = MediatorToKPINameTable ->
  is_Some (MediatorToKPINameTable !! msg) ->
  msg <> "xhr_complete" ->
  getCurrentEventStream st = Some es ->
  exists t,
    addEvent msg data now st = (setCurrentEventStream (es ++ [t]) st, Some t)
    /\ getKPIName MediatorToKPINameTable msg
                  (data_payload (data_or_empty data)) = Some (ev_name t)
    /\ getCurrentEventStream (fst (addEvent msg data now st))
       = Some (es ++ [t]).
Proof.
  intros Htab Hin Hmsg Hes.
  destruct (table_names msg (data_payload (data_or_empty data)) Hin)
    as (n & Hname & Hn & Hx).
  assert (Hstart : msg <> "start_time").
  { intros ->. destruct Hin as [info Hinfo]. discriminate Hinfo. }
  assert (Hnx : is_xhr_complete n = false).
  { destruct (is_xhr_complete n); [|reflexivity].
    contradiction Hmsg. apply Hx. reflexivity. }
  rewrite <- Htab in Hname.
  destruct (addEvent_appends st msg data now n es Hstart Hes Hname Hn
              (or_introl Hnx)) as (t & Hadd & Ht & _).
  exists t. rewrite Hadd, Ht, <- Htab. repeat split; try assumption.
  simpl. apply getCurrentEventStream_set.
  exact (getCurrentEventStream_Some _ _ Hes).
Qed.

End TableProperties.

(** X5: whenever the translation gives no name or the empty name (a
    function entry that returns nothing, an empty string entry, a
    missing entry), [addEvent] records nothing and returns nothing. *)
Theorem nameless_event_is_dropped (st : State) (msg : string) (data : Data)
        (now : Z) :
  msg <> "start_time" ->
  getKPIName (mediatorToKPINameTable (fst st)) msg
             (data_payload (data_or_empty data)) = None
  \/ getKPIName (mediatorToKPINameTable (fst st)) msg
                (data_payload (data_or_empty data)) = Some "" ->
  addEvent msg data now st = (st, None).
Proof.
  intros Hmsg Hname. unfold addEvent.
  apply String.eqb_neq in Hmsg. rewrite Hmsg.
  destruct (sampling_is_false (fst st)); [reflexivity|].
  destruct Hname as [-> | ->]; reflexivity.
Qed.

Section QueryStrings.

Context `{Host}.

(** X6: the name of a network completion does not depend on the query
    string of its url: a url [path], [path?q1] and [path?q2] with the
    same method give the same name, "xhr_complete." followed by the
    method and the path. *)
Theorem xhr_name_ignores_query (ty path q1 q2 : string) :
  ty <> "" -> path <> "" ->
  ~ In "?"%char (list_ascii_of_string path) ->
  getKPIName MediatorToKPINameTable "xhr_complete"
             (xhr_payload ty (path +:+ String "?"%char q1))
  = Some ("xhr_complete." +:+ ty +:+ path)
  /\ getKPIName MediatorToKPINameTable "xhr_complete"
                (xhr_payload ty (path +:+ String "?"%char q2))
     = getKPIName MediatorToKPINameTable "xhr_complete"
                  (xhr_payload ty (path +:+ String "?"%char q1))
  /\ getKPIName MediatorToKPINameTable "xhr_complete" (xhr_payload ty path)
     = getKPIName MediatorToKPINameTable "xhr_complete"
                  (xhr_payload ty (path +:+ String "?"%char q1)).
Proof.
  intros Hty Hpath Hfree.
  assert (Hq : forall q,
             getKPIName MediatorToKPINameTable "xhr_complete"
                        (xhr_payload ty (path +:+ String "?"%char q))
             = Some ("xhr_complete." +:+ ty +:+ path)).
  { intros q.
    change (getKPIName MediatorToKPINameTable "xhr_complete"
              (xhr_payload ty (path +:+ String "?"%char q)))
      with (removeGetData "xhr_complete"
              (xhr_payload ty (path +:+ String "?"%char q))).
    unfold removeGetData, xhr_payload. cbn [p_network net_type net_url].
    rewrite (truthy_string_true _ Hty).
    assert (Hu : truthy_string (path +:+ String "?"%char q) = true)
      by (destruct path; reflexivity).
    rewrite Hu. cbn [truthy_string andb].
    rewrite (split_head_app _ _ _ Hfree). reflexivity. }
  split; [apply Hq|]. split; [rewrite !Hq; reflexivity|].
  rewrite Hq.
  change (getKPIName MediatorToKPINameTable "xhr_complete" (xhr_payload ty path))
    with (removeGetData "xhr_complete" (xhr_payload ty path)).
  unfold removeGetData, xhr_payload. cbn [p_network net_type net_url].
  rewrite (truthy_string_true _ Hty), (truthy_string_true _ Hpath).
  cbn [truthy_string andb].
  rewrite (split_head_whole _ _ Hfree). reflexivity.
Qed.

End QueryStrings.

(** ** The stream under [addEvent] and [updateStartTime] *)

Lemma updateStartTime_names (newStartTime : TimeValue) (st : State)
      (es : list EventTuple) :
  getCurrentEventStream st = Some es ->
  exists es0,
    getCurrentEventStream (updateStartTime newStartTime st) = Some es0
    /\ map ev_name es0 = map ev_name es.
Proof.
  intros Hes.
  destruct (updateStartTime_stream newStartTime st es Hes) as (Hget & _).
  eexists. split; [exact Hget|]. apply map_name_shift.
Qed.

(** X7: [addEvent] only ever adds at the end of the current stream: the
    names of the tuples recorded before stay as they are and in their
    order, the stream grows by one tuple exactly when [addEvent]
    returns a tuple, and the returned tuple is the new last one; when it
    returns nothing (event dropped or collapsed) the stream keeps its
    length. *)
Theorem addEvent_appends_only (msg : string) (data : Data) (now : Z)
        (st : State) (es : list EventTuple) :
  getCurrentEventStream st = Some es ->
  exists es',
    getCurrentEventStream (fst (addEvent msg data now st)) = Some es'
    /\ map ev_name es'
       = map ev_name es ++ match snd (addEvent msg data now st) with
                           | Some t => [ev_name t]
                           | None => []
                           end
    /\ length es'
       = (length es + match snd (addEvent msg data now st) with
                      | Some _ => 1
                      | None => 0
                      end)%nat
    /\ forall t, snd (addEvent msg data now st) = Some t -> last es' = Some t.
Proof.
  intros Hes. unfold addEvent.
  set (st0 := if String.eqb msg "start_time"
              then updateStartTime (data_time (data_or_empty data)) st
              else st).
  assert (H0 : exists es0, getCurrentEventStream st0 = Some es0
                           /\ map ev_name es0 = map ev_name es).
  { subst st0. destruct (String.eqb msg "start_time");
      [apply updateStartTime_names; exact Hes | exists es; auto]. }
  destruct H0 as (es0 & Hes0 & Hnames). clearbody st0.
  assert (Hlen : length es0 = length es).
  { rewrite <- (length_map ev_name es0), Hnames. apply length_map. }
  assert (Hsame : exists es',
             getCurrentEventStream st0 = Some es'
             /\ map ev_name es' = map ev_name es ++ []
             /\ length es' = (length es + 0)%nat
             /\ forall t : EventTuple, None = Some t -> last es' = Some t).
  { exists es0. rewrite app_nil_r, Nat.add_0_r.
    repeat split; try assumption. discriminate. }
  rewrite (getCurrentEventStream_Some _ _ Hes0).
  destruct (getKPIName _ msg _) as [n|]; [|exact Hsame].
  destruct (negb (truthy_string n)); [exact Hsame|].
  destruct (preventDuplicateXhrEvents n st0) as [st1 [t'|]] eqn:Hp.
  - apply preventDuplicateXhrEvents_Some in Hp.
    destruct Hp as (es1 & t & Hes1 & _ & _ & -> & ->). simpl.
    rewrite getCurrentEventStream_set
      by exact (getCurrentEventStream_Some _ _ Hes0).
    rewrite Hes0 in Hes1. injection Hes1 as ->.
    eexists. split; [reflexivity|].
    rewrite app_nil_r, Nat.add_0_r, <- Hnames, <- Hlen, !map_app, !length_app.
    repeat split. discriminate.
  - apply preventDuplicateXhrEvents_None in Hp. subst st1.
    rewrite Hes0. simpl.
    rewrite getCurrentEventStream_set
      by exact (getCurrentEventStream_Some _ _ Hes0).
    eexists. split; [reflexivity|].
    rewrite map_app, length_app, Hnames, Hlen. simpl.
    repeat split. intros t [= <-]. apply last_snoc.
Qed.

(** The tuple [addEvent] builds for a payload, a clock reading and a
    start time. *)
Lemma addEvent_appends_tuple (st : State) (msg : string) (data : Data)
      (now : Z) (n : string) (es : list EventTuple) :
  msg <> "start_time" ->
  getCurrentEventStream st = Some es ->
  getKPIName (mediatorToKPINameTable (fst st)) msg
             (data_payload (data_or_empty data)) = Some n ->
  n <> "" ->
  (is_xhr_complete n = false \/ forall t, last es = Some t -> ev_name t <> n) ->
  let payload := data_payload (data_or_empty data) in
  let t :=
    {| ev_name := n;
       ev_offset :=
         num_sub (Num (if truthy_Z (p_eventTime payload)
                       then default now (p_eventTime payload) else now))
                 (time_toNumber (startTime (fst st)));
       ev_rest := if truthy_Z (p_duration payload)
                  then [p_duration payload] else [] |} in
  addEvent msg data now st = (setCurrentEventStream (es ++ [t]) st, Some t).
Proof.
  intros Hmsg Hes Hname Hn Hdup payload t.
  unfold addEvent.
  apply String.eqb_neq in Hmsg. rewrite Hmsg.
  rewrite (getCurrentEventStream_Some _ _ Hes), Hname.
  rewrite (truthy_string_true _ Hn). simpl negb. cbv iota.
  assert (Hp : preventDuplicateXhrEvents n st = (st, None)).
  { unfold preventDuplicateXhrEvents. rewrite Hes.
    destruct Hdup as [-> | Hlast]; [reflexivity|].
    destruct (is_xhr_complete n); [|reflexivity].
    rewrite last_lookup_sub.
    destruct (last es) as [t0|] eqn:El; [|reflexivity].
    specialize (Hlast t0 eq_refl). apply String.eqb_neq in Hlast.
    rewrite Hlast. reflexivity. }
  rewrite Hp, Hes. reflexivity.
Qed.

(** X8: the offset of a recorded event is its time minus the start time,
    where the time is the [eventTime] of the payload when it has one
    (other than 0) and the clock otherwise; the offset is negative for an
    event that happened before the start.  The tuple has a third cell,
    the duration, exactly when the payload has a duration other than 0. *)
Theorem recorded_offset_and_duration (st : State) (msg : string)
        (payload : Payload) (now start : Z) (n : string)
        (es : list EventTuple) :
  msg <> "start_time" ->
  getCurrentEventStream st = Some es ->
  getKPIName (mediatorToKPINameTable (fst st)) msg payload = Some n ->
  n <> "" ->
  (is_xhr_complete n = false \/ forall t, last es = Some t -> ev_name t <> n) ->
  time_toNumber (startTime (fst st)) = Num start ->
  exists t,
    addEvent msg (DObject payload) now st
    = (setCurrentEventStream (es ++ [t]) st, Some t)
    /\ (forall e, p_eventTime payload = Some e -> e <> 0 ->
                  ev_offset t = Num (e - start))
    /\ (p_eventTime payload = None \/ p_eventTime payload = Some 0 ->
        ev_offset t = Num (now - start))
    /\ (forall d, p_duration payload = Some d -> d <> 0 ->
                  cells t = [CStr n; CNum (ev_offset t); CNum (Num d)])
    /\ (p_duration payload = None \/ p_duration payload = Some 0 ->
        cells t = [CStr n; CNum (ev_offset t)]).
Proof.
  intros Hmsg Hes Hname Hn Hdup Hstart.
  pose proof (addEvent_appends_tuple st msg (DObject payload) now n es
                Hmsg Hes Hname Hn Hdup) as Hadd.
  cbv zeta in Hadd. simpl data_payload in Hadd. rewrite Hstart in Hadd.
  eexists. split; [exact Hadd|]. unfold cells. cbn [ev_name ev_offset ev_rest].
  repeat split.
  - intros e -> He. simpl. apply Z.eqb_neq in He. rewrite He. reflexivity.
  - intros [-> | ->]; reflexivity.
  - intros d -> Hd. simpl. apply Z.eqb_neq in Hd. rewrite Hd. reflexivity.
  - intros [-> | ->]; reflexivity.
Qed.

(** X9: a correction of the start time does not move any recorded event
    in time: for every tuple, offset plus start time is the same number
    before and after the correction. *)
Theorem correction_keeps_absolute_times (st : State) (newStartTime : TimeValue)
        (es : list EventTuple) (old new : Z) :
  getCurrentEventStream st = Some es ->
  time_toNumber (startTime (fst st)) = Num old ->
  time_toNumber newStartTime = Num new ->
  exists es',
    getCurrentEventStream (updateStartTime newStartTime st) = Some es'
    /\ time_toNumber (startTime (fst (updateStartTime newStartTime st)))
       = Num new
    /\ forall i t o,
        es !! i = Some t -> ev_offset t = Num o ->
        exists t' o',
          es' !! i = Some t' /\ ev_offset t' = Num o'
          /\ o' + new = o + old.
Proof.
  intros Hes Hold Hnew.
  destruct (updateStartTime_stream newStartTime st es Hes)
    as (Hget & Hstart & _).
  rewrite Hold, Hnew in Hget. simpl in Hget.
  eexists. split; [exact Hget|]. rewrite Hstart. split; [exact Hnew|].
  intros i t o Hi Ho.
  exists (shift_offset (Num (old - new)) t), (o + (old - new)).
  rewrite list_lookup_fmap, Hi. simpl. rewrite Ho. simpl.
  repeat split. lia.
Qed.

Lemma shift_shift (x : Z) (n1 n2 : num) (es : list EventTuple) :
  (forall o, num_add (num_add o (Num x)) n1 = num_add o n2) ->
  map (shift_offset n1) (map (shift_offset (Num x)) es)
  = map (shift_offset n2) es.
Proof.
  intros Hadd. rewrite map_map. apply map_ext. intros [n o r].
  unfold shift_offset. simpl. rewrite Hadd. reflexivity.
Qed.

(** X10: corrections of the start time compose: correcting to [t1] and
    then to [t2] leaves the same stream and the same start time as
    correcting to [t2] at once; and a correction to the start time the
    module already has changes no offset. *)
Theorem corrections_compose (st : State) (t1 t2 : TimeValue)
        (es : list EventTuple) (old mid : Z) :
  getCurrentEventStream st = Some es ->
  time_toNumber (startTime (fst st)) = Num old ->
  time_toNumber t1 = Num mid ->
  getCurrentEventStream (updateStartTime t2 (updateStartTime t1 st))
  = getCurrentEventStream (updateStartTime t2 st)
  /\ startTime (fst (updateStartTime t2 (updateStartTime t1 st)))
     = startTime (fst (updateStartTime t2 st))
  /\ (time_toNumber t2 = Num old ->
      getCurrentEventStream (updateStartTime t2 st) = Some es).
Proof.
  intros Hes Hold Hmid.
  destruct (updateStartTime_stream t1 st es Hes) as (Hget1 & Hst1 & _).
  destruct (updateStartTime_stream t2 _ _ Hget1) as (Hget12 & Hst12 & _).
  destruct (updateStartTime_stream t2 st es Hes) as (Hget2 & Hst2 & _).
  rewrite Hst1, Hold, Hmid in Hget12. rewrite Hold in Hget2.
  split; [|split].
  - rewrite Hget12, Hget2. f_equal. apply shift_shift.
    intros o. destruct o as [o|], (time_toNumber t2) as [b|]; simpl;
      try reflexivity. f_equal. lia.
  - rewrite Hst12, Hst2. reflexivity.
  - intros Hsame. rewrite Hget2, Hsame. simpl. f_equal.
    rewrite <- (map_id es) at 2. apply map_ext. intros [n [o|] r];
      unfold shift_offset; simpl; [|reflexivity].
    f_equal. f_equal. lia.
Qed.

(** ** KPI data *)

Section KpiData.

Context `{Host}.

Lemma extend_assoc (cur a b : KPIs) :
  extend (extend cur a) b = extend cur (extend a b).
Proof.
  unfold extend. simpl. f_equal.
  - destruct (event_stream b), (event_stream a); reflexivity.
  - apply (assoc_L (∪)).
Qed.

Lemma addKPIData_get (kpiData : KPIs) (st : State) (cur : KPIs) :
  getCurrentKPIs st = Some cur ->
  getCurrentKPIs (addKPIData kpiData st) = Some (extend cur kpiData).
Proof.
  intros Hcur. unfold addKPIData. rewrite Hcur.
  destruct st as [s m]. unfold getCurrentKPIs, setCurrentKPIs in *.
  destruct (sampling_is_false s) eqn:Hs; [discriminate|].
  destruct (samplesBeingStored s) eqn:Hst; simpl.
  - rewrite Hs, Hst. reflexivity.
  - unfold sampling_is_false in *. simpl. rewrite Hs, Hst. reflexivity.
Qed.

Lemma addKPIData_self (kpiData : KPIs) (st : State) :
  samplingEnabled (fst (addKPIData kpiData st)) = samplingEnabled (fst st)
  /\ samplesBeingStored (fst (addKPIData kpiData st))
     = samplesBeingStored (fst st)
  /\ initialEventStream (fst (addKPIData kpiData st))
     = initialEventStream (fst st)
  /\ startTime (fst (addKPIData kpiData st)) = startTime (fst st).
Proof.
  unfold addKPIData. destruct (getCurrentKPIs st) as [cur|]; [|auto].
  destruct st as [s m]. unfold setCurrentKPIs.
  destruct (samplesBeingStored s) eqn:Hst; simpl; rewrite ?Hst; auto.
Qed.

(** X11: KPI data handed to [addKPIData] while there is a current record
    is merged into it key by key: afterwards [getCurrentKPIs] gives, for
    every key of the data, the value of the data, and for every other
    key the value the record had; data without an event stream leave the
    current event stream as it is. *)
Theorem kpi_data_is_merged (kpiData : KPIs) (st : State) (cur : KPIs) :
  getCurrentKPIs st = Some cur ->
  exists merged,
    getCurrentKPIs (addKPIData kpiData st) = Some merged
    /\ (forall k v, fields kpiData !! k = Some v -> fields merged !! k = Some v)
    /\ (forall k, fields kpiData !! k = None ->
                  fields merged !! k = fields cur !! k)
    /\ (event_stream kpiData = None ->
        event_stream merged = event_stream cur
        /\ getCurrentEventStream (addKPIData kpiData st)
           = getCurrentEventStream st).
Proof.
  intros Hcur. exists (extend cur kpiData).
  split; [exact (addKPIData_get kpiData st cur Hcur)|].
  split; [|split].
  - intros k v Hk. simpl. apply lookup_union_Some_l. exact Hk.
  - intros k Hk. simpl. apply lookup_union_r. exact Hk.
  - intros Hnone. unfold extend at 1. simpl. rewrite Hnone.
    split; [reflexivity|].
    unfold addKPIData. rewrite Hcur.
    destruct st as [s m]. unfold getCurrentKPIs in Hcur.
    unfold setCurrentKPIs, getCurrentEventStream.
    destruct (sampling_is_false s) eqn:Hs; [discriminate|].
    destruct (samplesBeingStored s) eqn:Hst; simpl.
    + rewrite Hs, Hst. unfold model_getCurrent in *. rewrite Hcur. simpl.
      rewrite Hnone. reflexivity.
    + unfold sampling_is_false in *. simpl. rewrite Hs, Hst. reflexivity.
Qed.

(** X12: KPI data handed over in two parts end up as if handed over at
    once, the later part winning on the keys both have. *)
Theorem kpi_data_composes (a b : KPIs) (st : State) (cur : KPIs) :
  getCurrentKPIs st = Some cur ->
  getCurrentKPIs (addKPIData b (addKPIData a st))
  = getCurrentKPIs (addKPIData (extend a b) st)
  /\ exists merged,
      getCurrentKPIs (addKPIData b (addKPIData a st)) = Some merged
      /\ (forall k v, fields b !! k = Some v -> fields merged !! k = Some v)
      /\ (forall k v, fields b !! k = None -> fields a !! k = Some v ->
                      fields merged !! k = Some v).
Proof.
  intros Hcur.
  pose proof (addKPIData_get a st cur Hcur) as Ha.
  pose proof (addKPIData_get b _ _ Ha) as Hab.
  pose proof (addKPIData_get (extend a b) st cur Hcur) as Hboth.
  rewrite extend_assoc in Hab.
  split; [rewrite Hab, Hboth; reflexivity|].
  exists (extend cur (extend a b)). split; [exact Hab|]. split.
  - intros k v Hk. simpl. apply lookup_union_Some_l.
    apply lookup_union_Some_l. exact Hk.
  - intros k v Hb Ha'. simpl. apply lookup_union_Some_l.
    rewrite lookup_union_r by exact Hb. exact Ha'.
Qed.

(** X13: while samples are stored durably and the store has no current
    record, KPI data are dropped without a trace, whereas a recorded
    event makes the store hold a new record that consists of the event
    stream alone. *)
Theorem empty_slot_drops_kpi_data_keeps_events (st : State) (kpiData : KPIs)
        (msg : string) (data : Data) (now : Z) (n : string) :
  samplesBeingStored (fst st) = true ->
  sampling_is_false (fst st) = false ->
  model_getCurrent (snd st) = None ->
  msg <> "start_time" ->
  getKPIName (mediatorToKPINameTable (fst st)) msg
             (data_payload (data_or_empty data)) = Some n ->
  n <> "" ->
  addKPIData kpiData st = st
  /\ exists t,
      ev_name t = n
      /\ snd (addEvent msg data now st) = Some t
      /\ model_getCurrent (snd (fst (addEvent msg data now st)))
         = Some {| event_stream := Some [t]; fields := ∅ |}.
Proof.
  destruct st as [s m]. simpl. intros Hst Hs Hcur Hmsg Hname Hn.
  split.
  - unfold addKPIData, getCurrentKPIs. rewrite Hs, Hst, Hcur. reflexivity.
  - assert (Hes : getCurrentEventStream (s, m) = Some []).
    { unfold getCurrentEventStream. rewrite Hs, Hst, Hcur. reflexivity. }
    pose proof (addEvent_appends_tuple (s, m) msg data now n [] Hmsg Hes
                  Hname Hn) as Hadd.
    cbv zeta in Hadd. rewrite Hadd.
    + eexists. split; [|split; [reflexivity|]]; [reflexivity|].
      unfold setCurrentEventStream. rewrite Hst, Hcur. reflexivity.
    + right. intros t Ht. discriminate Ht.
Qed.

Lemma setCurrentEventStream_buffer (es : list EventTuple) (st : State) :
  samplesBeingStored (fst st) = false ->
  snd (setCurrentEventStream es st) = snd st.
Proof.
  destruct st as [s m]. simpl. intros Hst. unfold setCurrentEventStream.
  rewrite Hst. reflexivity.
Qed.

Lemma updateStartTime_buffer (t : TimeValue) (st : State) :
  samplesBeingStored (fst st) = false ->
  snd (updateStartTime t st) = snd st.
Proof.
  intros Hst. unfold updateStartTime.
  destruct (getCurrentEventStream st) as [[|e es]|]; simpl; try reflexivity.
  apply setCurrentEventStream_buffer. exact Hst.
Qed.

Lemma addEvent_buffer (msg : string) (data : Data) (now : Z) (st : State) :
  samplesBeingStored (fst st) = false ->
  snd (fst (addEvent msg data now st)) = snd st.
Proof.
  intros Hst.
  pose proof (addEvent_shape msg data now st) as Hshape. cbv zeta in Hshape.
  set (st0 := if String.eqb msg "start_time"
              then updateStartTime (data_time (data_or_empty data)) st
              else st) in Hshape.
  assert (H0 : snd st0 = snd st /\ samplesBeingStored (fst st0) = false).
  { subst st0. destruct (String.eqb msg "start_time"); [|auto].
    split; [apply updateStartTime_buffer; exact Hst|].
    destruct (updateStartTime_self (data_time (data_or_empty data)) st)
      as (_ & -> & _). exact Hst. }
  destruct H0 as [<- Hst0].
  destruct Hshape as [-> | (es & es' & _ & -> & _)]; [reflexivity|].
  apply setCurrentEventStream_buffer. exact Hst0.
Qed.

Lemma addKPIData_buffer (kpiData : KPIs) (st : State) :
  samplesBeingStored (fst st) = false ->
  snd (addKPIData kpiData st) = snd st.
Proof.
  intros Hst. unfold addKPIData.
  destruct (getCurrentKPIs st) as [cur|]; [|reflexivity].
  destruct st as [s m]. simpl in Hst. unfold setCurrentKPIs.
  rewrite Hst. reflexivity.
Qed.

(** X14: as long as the samples are not stored durably, nothing the
    mediator hands over reaches the store: whatever the messages and the
    KPI data, the store and the list of calls it has received are what
    they were. *)
Theorem nothing_stored_before_promotion (inputs : list Input) (st : State) :
  samplesBeingStored (fst st) = false ->
  snd (feed inputs st) = snd st
  /\ samplesBeingStored (fst (feed inputs st)) = false.
Proof.
  revert st. induction inputs as [|i inputs IH]; intros st Hst; [auto|].
  change (feed (i :: inputs) st) with (feed inputs (feed1 i st)).
  assert (H1 : snd (feed1 i st) = snd st
               /\ samplesBeingStored (fst (feed1 i st)) = false).
  { destruct i as [msg data now | kpiData]; unfold feed1, onKPIData.
    - split; [apply addEvent_buffer; exact Hst|].
      destruct (addEvent_self msg data now st) as (_ & -> & _). exact Hst.
    - split; [apply addKPIData_buffer; exact Hst|].
      destruct (addKPIData_self kpiData st) as (_ & -> & _). exact Hst. }
  destruct H1 as [Hm Hs]. destruct (IH _ Hs) as [-> ->]. auto.
Qed.

End KpiData.

(** ** Promotion of the buffer *)

Section Promotion.

Context `{Host}.

(** The record [beginSampling] pushes, field by field. *)
Lemma beginSampling_record (context : Context) (random : Q) (win : Window)
      (st : State) (kpis : KPIs) (local : string) :
  samplingEnabled (fst st) = Some true
  \/ (samplingEnabled (fst st) = None
      /\ Qle_bool random (default 0%Q (data_sample_rate context)) = true) ->
  initialKPIs (fst st) = Some kpis ->
  toString (startTime (fst st)) = Some local ->
  exists st' record,
    beginSampling context random win st = Normal st'
    /\ snd st' = model_push record (snd st)
    /\ samplingEnabled (fst st') = Some true
    /\ samplesBeingStored (fst st') = true
    /\ (forall k, k ∉ promotion_keys ->
                  k <> "screen_size" \/ screen win = None ->
                  fields record !! k = fields kpis !! k)
    /\ fields record !! "lang"
       = Some match or_string (html_lang win) None with
              | Some l => KVStr l
              | None => KVNull
              end
    /\ fields record !! "new_account" = Some (KVBool false)
    /\ fields record !! "screen_size"
       = match screen win with
         | Some (w, h) => Some (KVSize w h)
         | None => fields kpis !! "screen_size"
         end.
Proof.
  destruct st as [s m]. simpl. intros Hen Hk Hl.
  unfold beginSampling.
  assert (Hs1 : exists s1,
             match samplingEnabled s with
             | Some _ => s
             | None =>
                 set_samplingEnabled
                   (Some (Qle_bool random
                            (default 0%Q (data_sample_rate context)))) s
             end = s1
             /\ samplingEnabled s1 = Some true
             /\ initialKPIs s1 = Some kpis
             /\ startTime s1 = startTime s).
  { destruct Hen as [He | [He Hq]]; rewrite He; [|rewrite Hq];
      eexists; (split; [reflexivity|]); simpl; auto. }
  destruct Hs1 as (s1 & -> & He1 & Hk1 & Ht1).
  unfold sampling_is_falsy. rewrite He1, Hk1, Ht1, Hl.
  assert (Hkeys : forall k, k ∉ promotion_keys ->
             "sample_rate" <> k /\ "timestamp" <> k /\ "local_timestamp" <> k
             /\ "lang" <> k /\ "new_account" <> k).
  { intros k Hk'. repeat split; intros <-; apply Hk';
      unfold promotion_keys; repeat constructor. }
  assert (Hscreen_key : "screen_size" ∉ promotion_keys).
  { unfold promotion_keys. intros Hin.
    repeat (apply elem_of_cons in Hin; destruct Hin as [Hin | Hin];
            [discriminate Hin|]).
    apply elem_of_nil in Hin. exact Hin. }
  assert (Hother : forall k a b c d e,
             k ∉ promotion_keys ->
             ((<["sample_rate" := a]>
                 (<["timestamp" := b]>
                    (<["local_timestamp" := c]>
                       (<["lang" := d]> (<["new_account" := e]> ∅))))
               : gmap string kval) ∪ fields kpis) !! k
             = fields kpis !! k).
  { intros k a b c d e Hk'.
    destruct (Hkeys k Hk') as (H1 & H2 & H3 & H4 & H5).
    apply lookup_union_r.
    rewrite !lookup_insert_ne by assumption. apply lookup_empty. }
  destruct (screen win) as [[w h]|] eqn:Hscreen; do 2 eexists;
    (split; [reflexivity|]); cbn [fst snd];
    (split; [reflexivity|]); (split; [exact He1|]); (split; [reflexivity|]);
    cbn [fields event_stream list_to_map foldr curry uncurry fst snd].
  - split; [|split; [|split]].
    + intros k Hk' [Hne | Hnone]; [|discriminate Hnone].
      rewrite lookup_insert_ne by congruence. apply Hother. exact Hk'.
    + rewrite lookup_insert_ne by discriminate.
      apply lookup_union_Some_l. reflexivity.
    + rewrite lookup_insert_ne by discriminate.
      apply lookup_union_Some_l. reflexivity.
    + apply lookup_insert_eq.
  - split; [|split; [|split]].
    + intros k Hk' _. apply Hother. exact Hk'.
    + apply lookup_union_Some_l. reflexivity.
    + apply lookup_union_Some_l. reflexivity.
    + apply Hother. exact Hscreen_key.
Qed.

(** X15: the KPI data gathered in the buffer before the decision are part
    of the record that is pushed: for every key other than the ones
    [beginSampling] sets itself, the pushed record, which is the current
    record from then on, has the value the buffer had. *)
Theorem promotion_carries_kpi_data (context : Context) (random : Q)
        (win : Window) (st : State) (kpis : KPIs) (local : string) :
  samplingEnabled (fst st) = Some true
  \/ (samplingEnabled (fst st) = None
      /\ Qle_bool random (default 0%Q (data_sample_rate context)) = true) ->
  initialKPIs (fst st) = Some kpis ->
  toString (startTime (fst st)) = Some local ->
  exists st' record,
    beginSampling context random win st = Normal st'
    /\ getCurrentKPIs st' = Some record
    /\ forall k, k ∉ promotion_keys ->
                 k <> "screen_size" \/ screen win = None ->
                 fields record !! k = fields kpis !! k.
Proof.
  intros Hen Hk Hl.
  destruct (beginSampling_record context random win st kpis local Hen Hk Hl)
    as (st' & record & Hb & Hm & He & Hst & Hcarry & _).
  exists st', record. split; [exact Hb|]. split; [|exact Hcarry].
  destruct st' as [s' m']. simpl in *. unfold getCurrentKPIs, sampling_is_false.
  rewrite He, Hst, Hm. reflexivity.
Qed.

(** X16: a [new_account] value handed over as KPI data before the
    decision is lost at promotion, which sets [new_account] to false;
    handed over after the promotion it is kept in the current record. *)
Theorem new_account_before_and_after_promotion (context : Context)
        (random : Q) (win : Window) (st : State) (kpis kpiData : KPIs)
        (local : string) (v : kval) :
  samplingEnabled (fst st) = Some true
  \/ (samplingEnabled (fst st) = None
      /\ Qle_bool random (default 0%Q (data_sample_rate context)) = true) ->
  samplesBeingStored (fst st) = false ->
  initialKPIs (fst st) = Some kpis ->
  toString (startTime (fst st)) = Some local ->
  fields kpiData !! "new_account" = Some v ->
  (exists st' record,
      beginSampling context random win (addKPIData kpiData st) = Normal st'
      /\ getCurrentKPIs st' = Some record
      /\ fields record !! "new_account" = Some (KVBool false))
  /\ (exists st' record,
         beginSampling context random win st = Normal st'
         /\ getCurrentKPIs (addKPIData kpiData st') = Some record
         /\ fields record !! "new_account" = Some v).
Proof.
  intros Hen Hst Hk Hl Hv.
  assert (Hcur : getCurrentKPIs st = Some kpis).
  { destruct st as [s m]. simpl in *. unfold getCurrentKPIs, sampling_is_false.
    rewrite Hst, Hk. destruct Hen as [-> | [-> _]]; reflexivity. }
  split.
  - assert (Hadd : addKPIData kpiData st
                   = (set_initialKPIs (Some (extend kpis kpiData)) (fst st),
                      snd st)).
    { unfold addKPIData. rewrite Hcur. destruct st as [s m]. simpl in *.
      unfold setCurrentKPIs. rewrite Hst. reflexivity. }
    rewrite Hadd.
    destruct (beginSampling_record context random win
                (set_initialKPIs (Some (extend kpis kpiData)) (fst st), snd st)
                (extend kpis kpiData) local Hen eq_refl Hl)
      as (st' & record & Hb & Hm & He & Hs' & _ & _ & Hnew & _).
    exists st', record. split; [exact Hb|]. split; [|exact Hnew].
    destruct st' as [s' m']. simpl in *.
    unfold getCurrentKPIs, sampling_is_false. rewrite He, Hs', Hm. reflexivity.
  - destruct (beginSampling_record context random win st kpis local Hen Hk Hl)
      as (st' & record & Hb & Hm & He & Hs' & _).
    exists st', (extend record kpiData). split; [exact Hb|]. split.
    + apply addKPIData_get. destruct st' as [s' m']. simpl in *.
      unfold getCurrentKPIs, sampling_is_false.
      rewrite He, Hs', Hm. reflexivity.
    + simpl. apply lookup_union_Some_l. exact Hv.
Qed.

(** X17: in the pushed record [lang] is the [lang] attribute of the page
    when the page has one that is not empty, and null otherwise;
    [screen_size] is the size of [window.screen] when there is a screen,
    and is not set by the promotion otherwise. *)
Theorem promotion_lang_and_screen_size (context : Context) (random : Q)
        (win : Window) (st : State) (kpis : KPIs) (local : string) :
  samplingEnabled (fst st) = Some true
  \/ (samplingEnabled (fst st) = None
      /\ Qle_bool random (default 0%Q (data_sample_rate context)) = true) ->
  initialKPIs (fst st) = Some kpis ->
  toString (startTime (fst st)) = Some local ->
  exists st' record,
    beginSampling context random win st = Normal st'
    /\ model_getCurrent (snd st') = Some record
    /\ (forall l, html_lang win = Some l -> l <> "" ->
                  fields record !! "lang" = Some (KVStr l))
    /\ (html_lang win = None \/ html_lang win = Some "" ->
        fields record !! "lang" = Some KVNull)
    /\ (forall w h, screen win = Some (w, h) ->
                    fields record !! "screen_size" = Some (KVSize w h))
    /\ (screen win = None ->
        fields record !! "screen_size" = fields kpis !! "screen_size").
Proof.
  intros Hen Hk Hl.
  destruct (beginSampling_record context random win st kpis local Hen Hk Hl)
    as (st' & record & Hb & Hm & _ & _ & _ & Hlang & _ & Hscreen).
  exists st', record. split; [exact Hb|]. rewrite Hm.
  split; [reflexivity|]. rewrite Hlang, Hscreen. repeat split.
  - intros l -> Hne. simpl. rewrite (truthy_string_true _ Hne). reflexivity.
  - intros [-> | ->]; reflexivity.
  - intros w h ->. reflexivity.
  - intros ->. reflexivity.
Qed.

End Promotion.

(** ** Sessions that are not sampled, and sessions that are *)

Section Inert.

Context `{Host}.

Lemma feed_disabled (inputs : list Input) (st : State) :
  samplingEnabled (fst st) = Some false ->
  snd (feed inputs st) = snd st
  /\ samplingEnabled (fst (feed inputs st)) = Some false
  /\ samplesBeingStored (fst (feed inputs st)) = samplesBeingStored (fst st)
  /\ initialEventStream (fst (feed inputs st)) = initialEventStream (fst st)
  /\ initialKPIs (fst (feed inputs st)) = initialKPIs (fst st).
Proof.
  revert st. induction inputs as [|i inputs IH]; intros st He; [auto|].
  change (feed (i :: inputs) st) with (feed inputs (feed1 i st)).
  assert (H1 : snd (feed1 i st) = snd st
               /\ samplingEnabled (fst (feed1 i st)) = Some false
               /\ samplesBeingStored (fst (feed1 i st))
                  = samplesBeingStored (fst st)
               /\ initialEventStream (fst (feed1 i st))
                  = initialEventStream (fst st)
               /\ initialKPIs (fst (feed1 i st)) = initialKPIs (fst st)).
  { destruct i as [msg data now | kpiData]; unfold feed1, onKPIData.
    - destruct (addEvent_disabled msg data now st He)
        as (_ & Hm & He' & Hi & Hk).
      destruct (addEvent_self msg data now st) as (_ & Hs & _). auto.
    - unfold addKPIData. destruct st as [s m]. simpl in He.
      unfold getCurrentKPIs, sampling_is_false. rewrite He. auto. }
  destruct H1 as (Hm & He' & Hs & Hi & Hk).
  destruct (IH _ He') as (-> & -> & -> & -> & ->). auto.
Qed.

Lemma disabled_getters (st : State) :
  samplingEnabled (fst st) = Some false ->
  getCurrentEventStream st = None /\ getCurrentKPIs st = None.
Proof.
  destruct st as [s m]. simpl. intros He.
  unfold getCurrentEventStream, getCurrentKPIs, sampling_is_false.
  rewrite He. auto.
Qed.

(** X18: when the draw is above the rate the session is not sampled: the
    call changes nothing but the flag, and from then on, whatever
    messages and KPI data arrive, the store is never written and the
    module gives out neither a stream nor a record. *)
Theorem unsampled_session_stores_nothing (context : Context) (random : Q)
        (win : Window) (st : State) (inputs : list Input) :
  samplingEnabled (fst st) = None ->
  Qle_bool random (default 0%Q (data_sample_rate context)) = false ->
  exists st',
    beginSampling context random win st = Normal st'
    /\ st' = (set_samplingEnabled (Some false) (fst st), snd st)
    /\ snd (feed inputs st') = snd st
    /\ getCurrentEventStream (feed inputs st') = None
    /\ getCurrentKPIs (feed inputs st') = None.
Proof.
  intros He Hq. eexists. split; [|split; [reflexivity|]].
  - destruct st as [s m]. simpl in He. unfold beginSampling.
    rewrite He, Hq. reflexivity.
  - destruct (feed_disabled inputs
                (set_samplingEnabled (Some false) (fst st), snd st) eq_refl)
      as (Hm & He' & _).
    split; [exact Hm|]. apply disabled_getters. exact He'.
Qed.

(** X19: [disable] makes the recorder inert and [enable] brings it back:
    whatever arrives while sampling is disabled is lost and leaves the
    store alone, and after [enable] the current stream and the current
    record are the ones from before [disable]. *)
Theorem disable_then_enable (st : State) (inputs : list Input) :
  sampling_is_false (fst st) = false ->
  snd (feed inputs (disable st)) = snd st
  /\ getCurrentEventStream (feed inputs (disable st)) = None
  /\ getCurrentEventStream (enable (feed inputs (disable st)))
     = getCurrentEventStream st
  /\ getCurrentKPIs (enable (feed inputs (disable st))) = getCurrentKPIs st.
Proof.
  intros Hs.
  destruct (feed_disabled inputs (disable st) eq_refl)
    as (Hm & He & Hst & Hi & Hk).
  split; [exact Hm|]. split; [apply disabled_getters; exact He|].
  destruct (feed inputs (disable st)) as [s' m'].
  destruct st as [s m]. simpl in *. subst m'.
  unfold getCurrentEventStream, getCurrentKPIs. simpl.
  rewrite Hs, Hst, Hi, Hk. auto.
Qed.

(** X20: an event recorded while samples are stored durably is written
    through to the store at once, with one call of [setCurrent]: the
    current record gets the stream with the new tuple at its end and
    keeps all its other keys, and the module instance is not touched. *)
Theorem stored_event_is_written_through (st : State) (msg : string)
        (data : Data) (now : Z) (n : string) (record : KPIs) :
  samplesBeingStored (fst st) = true ->
  sampling_is_false (fst st) = false ->
  model_getCurrent (snd st) = Some record ->
  msg <> "start_time" ->
  getKPIName (mediatorToKPINameTable (fst st)) msg
             (data_payload (data_or_empty data)) = Some n ->
  n <> "" ->
  (is_xhr_complete n = false
   \/ forall t, last (default [] (event_stream record)) = Some t ->
                ev_name t <> n) ->
  exists t,
    ev_name t = n
    /\ addEvent msg data now st
       = ((fst st,
           model_setCurrent
             {| event_stream :=
                  Some (default [] (event_stream record) ++ [t]);
                fields := fields record |} (snd st)),
          Some t).
Proof.
  destruct st as [s m]. simpl. intros Hst Hs Hcur Hmsg Hname Hn Hdup.
  assert (Hes : getCurrentEventStream (s, m)
                = Some (default [] (event_stream record))).
  { unfold getCurrentEventStream. rewrite Hs, Hst, Hcur. reflexivity. }
  pose proof (addEvent_appends_tuple (s, m) msg data now n _ Hmsg Hes
                Hname Hn Hdup) as Hadd.
  cbv zeta in Hadd. rewrite Hadd.
  unfold setCurrentEventStream. rewrite Hst, Hcur. simpl.
  eexists. split; [|reflexivity]. reflexivity.
Qed.

Lemma one_medium_set (es : list EventTuple) (st : State) :
  one_medium st -> one_medium (setCurrentEventStream es st).
Proof.
  destruct st as [s m]. unfold one_medium, setCurrentEventStream. simpl.
  destruct (samplesBeingStored s) eqn:Hst; simpl; [auto|].
  rewrite Hst. discriminate.
Qed.

Lemma one_medium_updateStartTime (t : TimeValue) (st : State) :
  one_medium st -> one_medium (updateStartTime t st).
Proof.
  intros Hok. unfold updateStartTime.
  assert (Hstart : forall st1, one_medium st1 ->
                               one_medium (set_startTime t (fst st1), snd st1))
    by (intros [s1 m1] H1; exact H1).
  destruct (getCurrentEventStream st) as [[|e es]|]; apply Hstart; auto.
  apply one_medium_set. exact Hok.
Qed.

Lemma one_medium_addEvent (msg : string) (data : Data) (now : Z) (st : State) :
  one_medium st -> one_medium (fst (addEvent msg data now st)).
Proof.
  intros Hok.
  pose proof (addEvent_shape msg data now st) as Hshape. cbv zeta in Hshape.
  set (st0 := if String.eqb msg "start_time"
              then updateStartTime (data_time (data_or_empty data)) st
              else st) in Hshape.
  assert (Hok0 : one_medium st0).
  { subst st0. destruct (String.eqb msg "start_time"); [|exact Hok].
    apply one_medium_updateStartTime, Hok. }
  destruct Hshape as [-> | (es & es' & _ & -> & _)]; [exact Hok0|].
  apply one_medium_set. exact Hok0.
Qed.

Lemma one_medium_addKPIData (kpiData : KPIs) (st : State) :
  one_medium st -> one_medium (addKPIData kpiData st).
Proof.
  intros Hok. unfold addKPIData.
  destruct (getCurrentKPIs st) as [cur|]; [|exact Hok].
  destruct st as [s m]. unfold one_medium, setCurrentKPIs in *. simpl in *.
  destruct (samplesBeingStored s) eqn:Hst; simpl; [auto|].
  rewrite Hst. discriminate.
Qed.

Lemma one_medium_beginSampling (context : Context) (random : Q)
      (win : Window) (st : State) :
  one_medium st ->
  one_medium (outcome_state (beginSampling context random win st)).
Proof.
  destruct st as [s m]. unfold one_medium, beginSampling. simpl.
  intros Hok.
  set (s1 := match samplingEnabled s with
             | Some _ => s
             | None => set_samplingEnabled _ s
             end).
  assert (H1 : samplesBeingStored s1 = samplesBeingStored s
               /\ initialEventStream s1 = initialEventStream s
               /\ initialKPIs s1 = initialKPIs s)
    by (subst s1; destruct (samplingEnabled s); auto).
  destruct H1 as (H1 & H2 & H3).
  assert (Hok1 : samplesBeingStored s1 = true ->
                 initialEventStream s1 = None /\ initialKPIs s1 = None)
    by (rewrite H1, H2, H3; exact Hok).
  clearbody s1.
  destruct (sampling_is_falsy s1); simpl; [exact Hok1|].
  destruct (initialKPIs s1) as [kpis|] eqn:Hk;
    [destruct (toString (startTime s1)) as [local|]|]; simpl.
  - auto.
  - rewrite ?Hk. exact Hok1.
  - rewrite ?Hk. exact Hok1.
Qed.

(** X21: in every state the module can reach, the buffer and the store are
    never both in use: while samples are stored durably, the buffered
    event stream and the buffered KPIs of the module instance are null. *)
Theorem buffer_or_store (w : World) :
  reachable w -> one_medium (state w).
Proof.
  intros [trace Hrun].
  induction Hrun as [options now | trace w l w' _ IH Hstep].
  - unfold start, one_medium. destruct (opt_continuation options); simpl;
      [auto | discriminate].
  - destruct Hstep; simpl.
    + apply one_medium_addEvent, IH.
    + apply one_medium_addKPIData, IH.
    + destruct (state w) as [s m]. exact IH.
    + unfold context_callback. simpl.
      pose proof (one_medium_beginSampling context random win (state w) IH)
        as Hb.
      destruct (beginSampling context random win (state w)); exact Hb.
    + unfold publishCurrent. destruct (state w) as [s m]. exact IH.
    + destruct (state w) as [s m]. exact IH.
    + destruct (state w) as [s m]. exact IH.
    + destruct (state w) as [s m]. exact IH.
    + unfold start, one_medium. destruct (opt_continuation options); simpl.
      * destruct (model_getCurrent (snd (state w))); simpl; auto.
      * discriminate.
Qed.

End Inert.

(** ** The page: continuation and the DOM loading time *)

Lemma substring_prefix (s1 post : string) :
  substring 0 (String.length s1) (s1 +:+ post) = s1.
Proof.
  induction s1 as [|c s1 IH]; simpl.
  - destruct post; reflexivity.
  - rewrite IH. reflexivity.
Qed.

Lemma substring_middle (pre s1 post : string) :
  substring (String.length pre) (String.length s1) (pre +:+ s1 +:+ post) = s1.
Proof.
  induction pre as [|c pre IH]; [exact (substring_prefix s1 post) | exact IH].
Qed.

Lemma substring_0_split (n : nat) :
  forall s s1 : string,
    substring 0 n s = s1 -> String.length s1 = n ->
    exists post, s = s1 +:+ post.
Proof.
  induction n as [|n IH]; intros s s1 Hsub Hlen.
  - destruct s1; [|discriminate]. exists s. reflexivity.
  - destruct s as [|c s]; simpl in Hsub; subst s1; [discriminate|].
    simpl in Hlen. injection Hlen as Hlen.
    destruct (IH s _ eq_refl Hlen) as [post Hpost].
    exists post.
    change (String c s = String c (substring 0 n s +:+ post)).
    f_equal. exact Hpost.
Qed.

Lemma substring_split (m : nat) :
  forall (n : nat) (s s1 : string),
    substring m n s = s1 -> String.length s1 = n ->
    exists pre post, s = pre +:+ s1 +:+ post.
Proof.
  induction m as [|m IH]; intros n s s1 Hsub Hlen.
  - destruct (substring_0_split n s s1 Hsub Hlen) as [post ->].
    exists "", post. reflexivity.
  - destruct s as [|c s]; simpl in Hsub.
    + subst s1. exists "", "". reflexivity.
    + destruct (IH n s s1 Hsub Hlen) as (pre & post & ->).
      exists (String c pre), post. reflexivity.
Qed.

(** X22: the page is taken for a continuation exactly when its location
    hash contains "#AUTH_RETURN" somewhere, at its start or after other
    text, and whatever follows it. *)
Theorem continuation_iff_hash_contains (hash : string) :
  continuation hash = true
  <-> exists pre post, hash = pre +:+ "#AUTH_RETURN" +:+ post.
Proof.
  unfold continuation. split.
  - destruct (String.index 0 "#AUTH_RETURN" hash) as [m|] eqn:Hi;
      [intros _ | discriminate].
    apply String.index_correct1 in Hi.
    exact (substring_split m _ hash _ Hi eq_refl).
  - intros (pre & post & ->).
    destruct (String.index 0 "#AUTH_RETURN"
                (pre +:+ "#AUTH_RETURN" +:+ post)) as [m|] eqn:Hi;
      [reflexivity|].
    exfalso.
    apply (String.index_correct3 0 (String.length pre)) in Hi;
      [| discriminate | apply Nat.le_0_l].
    apply Hi. apply substring_middle.
Qed.

Section PageProperties.

Context `{Host}.

Lemma dom_loading_name (table_payload : Payload) :
  getKPIName MediatorToKPINameTable "dom_loading" table_payload
  = Some "window.dom_loading".
Proof. reflexivity. Qed.

(** X23: on a page that is not a continuation, a DOM loading time given
    by the server (and not 0) becomes the first event of the buffered
    stream, named "window.dom_loading", at the offset of that time from
    the start of the module, with no duration; without such a time the
    stream is empty.  Either way the store holds what it held, with
    only the upload of the previous session asked for. *)
Theorem dom_loading_on_fresh_page (hash : option string)
        (DOM_LOADING : option Z) (now now' : Z) (m : Model) :
  continuation (default "" (or_string hash (Some ""))) = false ->
  let w := start_page hash DOM_LOADING now now' m in
  getCurrentEventStream (state w)
  = Some (match DOM_LOADING with
          | Some t =>
              if t =? 0 then []
              else [ {| ev_name := "window.dom_loading";
                        ev_offset := Num (t - now);
                        ev_rest := [] |} ]
          | None => []
          end)
  /\ snd (state w) = model_publishCurrent m
  /\ samplesBeingStored (fst (state w)) = false.
Proof.
  intros Hc. unfold start_page, start_js, start. rewrite Hc. cbn [opt_continuation].
  destruct DOM_LOADING as [t|]; simpl truthy_Z;
    [destruct (t =? 0) eqn:Ht; simpl negb; cbv iota|].
  - simpl. auto.
  - unfold mediator_publish. cbn [subscribed with_state state].
    unfold publishCurrent. cbn [state with_state with_pending].
    match goal with
    | |- context [addEvent ?msg ?data ?nw ?st] =>
        pose proof (addEvent_appends_tuple st msg data nw
                      "window.dom_loading" [] ltac:(discriminate)
                      eq_refl eq_refl ltac:(discriminate)
                      (or_introl eq_refl)) as Hadd
    end.
    cbv zeta in Hadd. rewrite Hadd. clear Hadd.
    simpl. rewrite Ht. simpl. auto.
  - simpl. auto.
Qed.

(** X24: on a continuation page with a stored record, a DOM loading time
    given by the server is written to the store at once: the stored
    stream gets one more tuple "window.dom_loading", whose offset is
    counted from the parsed [local_timestamp] of the record; when the
    store has no record the page records nothing at all. *)
Theorem dom_loading_on_continuation (hash : option string) (t now now' : Z)
        (m : Model) :
  continuation (default "" (or_string hash (Some ""))) = true ->
  t <> 0 ->
  let w := start_page hash (Some t) now now' m in
  match model_getCurrent m with
  | Some record =>
      snd (state w)
      = model_setCurrent
          {| event_stream :=
               Some (default [] (event_stream record)
                     ++ [ {| ev_name := "window.dom_loading";
                             ev_offset :=
                               num_sub (Num t)
                                 (Date_parse
                                    (fields record !! "local_timestamp"));
                             ev_rest := [] |} ]);
             fields := fields record |} m
  | None =>
      snd (state w) = m /\ getCurrentEventStream (state w) = None
  end.
Proof.
  intros Hc Ht. unfold start_page, start_js, start. rewrite Hc.
  cbn [opt_continuation]. apply Z.eqb_neq in Ht.
  simpl truthy_Z. rewrite Ht. simpl negb. cbv iota.
  destruct (model_getCurrent m) as [record|] eqn:Hcur.
  - unfold mediator_publish. cbn [subscribed with_state state].
    match goal with
    | |- context [addEvent ?msg ?data ?nw ?st] =>
        pose proof (addEvent_appends_tuple st msg data nw
                      "window.dom_loading"
                      (default [] (event_stream record))
                      ltac:(discriminate)) as Hadd
    end.
    cbv zeta in Hadd. rewrite Hadd; clear Hadd.
    + simpl. unfold setCurrentEventStream. simpl. rewrite Hcur, Ht.
      reflexivity.
    + unfold getCurrentEventStream. simpl. rewrite Hcur. reflexivity.
    + reflexivity.
    + discriminate.
    + left. reflexivity.
  - unfold mediator_publish. simpl. auto.
Qed.

End PageProperties.

(** ** The argument lists of the network tests *)

Section StagingProperties.

Variable Callback : Type.
Variable unexpectedFailure : Callback.

(** X25: the argument list built for a staging method begins with the
    address and ends with the two callbacks, completion before failure,
    where a missing failure callback is replaced by the helper that
    fails the test; "origin" stands right after the address and the
    password, if the method takes one; the list has four entries and one
    more for each of the password and the verification flag. *)
Theorem staging_args_layout (email : string) (onComplete : Callback)
        (config : StagingConfig) (onFailure : option Callback) :
  let args :=
    getStagingMethodArgs Callback unexpectedFailure email onComplete config
                         onFailure in
  let n := length args in
  n = (4 + (if cfg_password config then 1 else 0)
         + (if cfg_unverified config then 1 else 0))%nat
  /\ args !! 0%nat = Some (AStr email)
  /\ args !! (if cfg_password config then 2 else 1)%nat = Some (AStr "origin")
  /\ args !! (n - 2)%nat = Some (ACallback onComplete)
  /\ args !! (n - 1)%nat
     = Some (ACallback (default unexpectedFailure onFailure))
  /\ (forall i s, args !! i = Some (AStr s) ->
                  i = 0%nat \/ s = "password" \/ s = "origin").
Proof.
  unfold getStagingMethodArgs.
  destruct config as [[|] [|]]; simpl; repeat split; try reflexivity.
  all: intros i s Hi;
    do 6 (destruct i as [|i]; simpl in Hi;
          [first [ left; reflexivity
                 | injection Hi as <-; auto
                 | discriminate ] |]);
    discriminate.
Qed.

End StagingProperties.

(** ** The further properties at sample inputs *)

(** A failed request with status 403 and no error object. *)
Lemma error_screen_status_threshold_witness :
  parseErrorScreen (H := sample_host) "error_screen" (status_payload 403)
  = Some ("screen.error." +:+ pretty 403).
Proof.
  destruct (error_screen_status_threshold
              (H := sample_host) "error_screen" (status_payload 403) eq_refl)
    as [_ Hhigh].
  destruct (Hhigh 403 eq_refl ltac:(lia)) as [Hname _]. exact Hname.
Defined.

(** An error the table of known errors does not hold, with a title and
    without a status. *)
Lemma error_screen_kind_witness :
  parseErrorScreen (H := sample_host) "error_screen" action_payload
  = Some "screen.error.Offline".
Proof.
  destruct (error_screen_kind (H := sample_host) "error_screen"
              action_payload offline_action eq_refl)
    as (kind & _ & _ & Htitle & _ & Hlow & _).
  rewrite (Htitle eq_refl "Offline" eq_refl ltac:(discriminate)) in Hlow.
  apply Hlow. intros s Hs. discriminate Hs.
Defined.

(** The entry of "dom_loading". *)
Lemma built_in_names_defined_witness :
  exists n,
    getKPIName (MediatorToKPINameTable (H := sample_host)) "dom_loading"
               empty_payload = Some n
    /\ n <> "".
Proof.
  destruct (built_in_names_defined (H := sample_host) "dom_loading"
              empty_payload (KString "window.dom_loading") eq_refl)
    as (n & Hn & Hne & _).
  exists n. split; assumption.
Defined.

(** "generate_assertion" on the first page load. *)
Lemma mapped_message_appends_witness :
  exists t,
    addEvent "generate_assertion" DUndefined 1010 fresh_state
    = (setCurrentEventStream ([] ++ [t]) fresh_state, Some t).
Proof.
  destruct (mapped_message_appends (H := sample_host) fresh_state
              "generate_assertion" DUndefined 1010 [] eq_refl
              (ex_intro _ KNull eq_refl) ltac:(discriminate) eq_refl)
    as (t & Hadd & _).
  exists t. exact Hadd.
Defined.

(** A message the table does not hold. *)
Lemma nameless_event_is_dropped_witness :
  addEvent "no_such_message" DUndefined 1010 fresh_state = (fresh_state, None).
Proof.
  apply nameless_event_is_dropped; [discriminate | left; reflexivity].
Defined.

(** Two requests for the list of addresses. *)
Lemma xhr_name_ignores_query_witness :
  getKPIName (MediatorToKPINameTable (H := sample_host)) "xhr_complete"
             (xhr_payload "GET" "/wsapi/list_emails?a=1")
  = Some "xhr_complete.GET/wsapi/list_emails"
  /\ getKPIName (MediatorToKPINameTable (H := sample_host)) "xhr_complete"
                (xhr_payload "GET" "/wsapi/list_emails?a=2")
     = getKPIName (MediatorToKPINameTable (H := sample_host)) "xhr_complete"
                  (xhr_payload "GET" "/wsapi/list_emails?a=1").
Proof.
  destruct (xhr_name_ignores_query (H := sample_host)
              "GET" "/wsapi/list_emails" "a=1" "a=2"
              ltac:(discriminate) ltac:(discriminate)
              ltac:(simpl; intuition discriminate))
    as (Hname & Hsame & _).
  split; [exact Hname | exact Hsame].
Defined.

(** The first event of a page. *)
Lemma addEvent_appends_only_witness :
  exists es',
    getCurrentEventStream
      (fst (addEvent "generate_assertion" DUndefined 1010 fresh_state))
    = Some es'
    /\ length es' = 1%nat.
Proof.
  destruct (addEvent_appends_only "generate_assertion" DUndefined 1010
              fresh_state [] eq_refl)
    as (es' & Hget & _ & Hlen & _).
  exists es'. split; [exact Hget | exact Hlen].
Defined.

(** An event that began at 990 and took 25 ms, reported at 1010 on a page
    started at 1000. *)
Lemma recorded_offset_and_duration_witness :
  exists t,
    addEvent "generate_assertion" (DObject timed_payload) 1010 fresh_state
    = (setCurrentEventStream ([] ++ [t]) fresh_state, Some t)
    /\ ev_offset t = Num (-10)
    /\ cells t = [CStr "generate_assertion"; CNum (Num (-10)); CNum (Num 25)].
Proof.
  destruct (recorded_offset_and_duration fresh_state "generate_assertion"
              timed_payload 1010 1000 "generate_assertion" []
              ltac:(discriminate) eq_refl eq_refl ltac:(discriminate)
              (or_introl eq_refl) eq_refl)
    as (t & Hadd & Htime & _ & Hdur & _).
  exists t. split; [exact Hadd|].
  pose proof (Htime 990 eq_refl ltac:(discriminate)) as Ho.
  pose proof (Hdur 25 eq_refl ltac:(discriminate)) as Hc.
  rewrite Ho in Hc. split; [exact Ho | exact Hc].
Defined.

(** An event at offset 10 from a start at 1000, and the start corrected
    to 900. *)
Lemma correction_keeps_absolute_times_witness :
  exists es' t' o',
    getCurrentEventStream (updateStartTime (TNumber (Num 900)) one_event_state)
    = Some es'
    /\ es' !! 0%nat = Some t' /\ ev_offset t' = Num o'
    /\ o' + 900 = 10 + 1000.
Proof.
  destruct (correction_keeps_absolute_times one_event_state
              (TNumber (Num 900))
              [ {| ev_name := "generate_assertion";
                   ev_offset := Num 10; ev_rest := [] |} ] 1000 900
              eq_refl eq_refl eq_refl)
    as (es' & Hget & _ & Hall).
  destruct (Hall 0%nat _ 10 eq_refl eq_refl) as (t' & o' & Ht' & Ho' & Hsum).
  exists es', t', o'. auto.
Defined.

(** The start corrected to 900 and then back to 1000. *)
Lemma corrections_compose_witness :
  getCurrentEventStream
    (updateStartTime (TDate 1000)
       (updateStartTime (TNumber (Num 900)) one_event_state))
  = getCurrentEventStream one_event_state.
Proof.
  destruct (corrections_compose one_event_state (TNumber (Num 900))
              (TDate 1000)
              [ {| ev_name := "generate_assertion";
                   ev_offset := Num 10; ev_rest := [] |} ] 1000 900
              eq_refl eq_refl eq_refl)
    as (Hsame & _ & Hback).
  rewrite Hsame. exact (Hback eq_refl).
Defined.

(** KPI data on the first page load. *)
Lemma kpi_data_is_merged_witness :
  exists merged,
    getCurrentKPIs (addKPIData sample_kpi_data fresh_state) = Some merged
    /\ fields merged !! "new_account" = Some (KVBool true)
    /\ getCurrentEventStream (addKPIData sample_kpi_data fresh_state)
       = getCurrentEventStream fresh_state.
Proof.
  destruct (kpi_data_is_merged sample_kpi_data fresh_state empty_KPIs eq_refl)
    as (merged & Hget & Hnew & _ & Hes).
  exists merged. split; [exact Hget|]. split.
  - apply Hnew. reflexivity.
  - apply Hes. reflexivity.
Defined.

Lemma kpi_data_composes_witness :
  getCurrentKPIs (addKPIData more_kpi_data
                    (addKPIData sample_kpi_data fresh_state))
  = getCurrentKPIs (addKPIData (extend sample_kpi_data more_kpi_data)
                               fresh_state).
Proof.
  destruct (kpi_data_composes sample_kpi_data more_kpi_data fresh_state
              empty_KPIs eq_refl) as [Hsame _].
  exact Hsame.
Defined.

(** A continuation page after the upload of its record. *)
Lemma empty_slot_drops_kpi_data_keeps_events_witness :
  addKPIData sample_kpi_data empty_slot_state = empty_slot_state
  /\ exists t,
      model_getCurrent
        (snd (fst (addEvent "generate_assertion" DUndefined 5010
                            empty_slot_state)))
      = Some {| event_stream := Some [t]; fields := ∅ |}.
Proof.
  destruct (empty_slot_drops_kpi_data_keeps_events empty_slot_state
              sample_kpi_data "generate_assertion" DUndefined 5010
              "generate_assertion" eq_refl eq_refl eq_refl
              ltac:(discriminate) eq_refl ltac:(discriminate))
    as (Hkpi & t & _ & _ & Hcur).
  split; [exact Hkpi|]. exists t. exact Hcur.
Defined.

Lemma nothing_stored_before_promotion_witness :
  snd (feed sample_inputs fresh_state) = snd fresh_state.
Proof.
  destruct (nothing_stored_before_promotion sample_inputs fresh_state eq_refl)
    as [Hm _].
  exact Hm.
Defined.

(** KPI data reported before the session context arrives. *)
Lemma promotion_carries_kpi_data_witness :
  exists st' record,
    beginSampling (H := sample_host) sample_context (1 # 2) sample_window
                  (addKPIData more_kpi_data fresh_state)
    = Normal st'
    /\ getCurrentKPIs st' = Some record
    /\ fields record !! "number_emails" = Some (KVNum 2).
Proof.
  destruct (promotion_carries_kpi_data (H := sample_host) sample_context
              (1 # 2) sample_window (addKPIData more_kpi_data fresh_state)
              (extend empty_KPIs more_kpi_data) (Date_toString 1000)
              (or_intror (conj eq_refl eq_refl)) eq_refl eq_refl)
    as (st' & record & Hb & Hget & Hkeep).
  exists st', record. split; [exact Hb|]. split; [exact Hget|].
  rewrite (Hkeep "number_emails").
  - reflexivity.
  - unfold promotion_keys. intros Hin.
    repeat (apply elem_of_cons in Hin; destruct Hin as [Hin|Hin];
            [discriminate Hin|]).
    apply elem_of_nil in Hin. exact Hin.
  - left. discriminate.
Defined.

Lemma new_account_before_and_after_promotion_witness :
  (exists st' record,
      beginSampling (H := sample_host) sample_context (1 # 2) sample_window
                    (addKPIData sample_kpi_data fresh_state)
      = Normal st'
      /\ getCurrentKPIs st' = Some record
      /\ fields record !! "new_account" = Some (KVBool false))
  /\ (exists st' record,
         beginSampling (H := sample_host) sample_context (1 # 2)
                       sample_window fresh_state
         = Normal st'
         /\ getCurrentKPIs (addKPIData sample_kpi_data st') = Some record
         /\ fields record !! "new_account" = Some (KVBool true)).
Proof.
  exact (new_account_before_and_after_promotion (H := sample_host)
           sample_context (1 # 2) sample_window fresh_state empty_KPIs
           sample_kpi_data (Date_toString 1000) (KVBool true)
           (or_intror (conj eq_refl eq_refl)) eq_refl eq_refl eq_refl
           eq_refl).
Defined.

Lemma promotion_lang_and_screen_size_witness :
  exists st' record,
    beginSampling (H := sample_host) sample_context (1 # 2) sample_window
                  fresh_state
    = Normal st'
    /\ model_getCurrent (snd st') = Some record
    /\ fields record !! "lang" = Some (KVStr "en")
    /\ fields record !! "screen_size" = Some (KVSize 1024 768).
Proof.
  destruct (promotion_lang_and_screen_size (H := sample_host) sample_context
              (1 # 2) sample_window fresh_state empty_KPIs
              (Date_toString 1000)
              (or_intror (conj eq_refl eq_refl)) eq_refl eq_refl)
    as (st' & record & Hb & Hcur & Hlang & _ & Hsize & _).
  exists st', record. split; [exact Hb|]. split; [exact Hcur|]. split.
  - apply Hlang; [reflexivity | discriminate].
  - apply Hsize. reflexivity.
Defined.

(** A draw of one half against a rate of one in ten. *)
Lemma unsampled_session_stores_nothing_witness :
  exists st',
    beginSampling (H := sample_host) low_rate_context (1 # 2) sample_window
                  fresh_state
    = Normal st'
    /\ snd (feed sample_inputs st') = snd fresh_state
    /\ getCurrentEventStream (feed sample_inputs st') = None.
Proof.
  destruct (unsampled_session_stores_nothing (H := sample_host)
              low_rate_context (1 # 2) sample_window fresh_state
              sample_inputs eq_refl eq_refl)
    as (st' & Hb & _ & Hm & Hes & _).
  exists st'. auto.
Defined.

Lemma disable_then_enable_witness :
  getCurrentEventStream (enable (feed sample_inputs (disable one_event_state)))
  = getCurrentEventStream one_event_state.
Proof.
  destruct (disable_then_enable one_event_state sample_inputs eq_refl)
    as (_ & _ & Hes & _).
  exact Hes.
Defined.

(** An event on a continuation page over the stored record. *)
Lemma stored_event_is_written_through_witness :
  exists t,
    ev_name t = "generate_assertion"
    /\ snd (fst (addEvent "generate_assertion" DUndefined 5010 stored_state))
       = model_setCurrent
           {| event_stream :=
                Some (default [] (event_stream stored_record) ++ [t]);
              fields := fields stored_record |} (snd stored_state).
Proof.
  destruct (stored_event_is_written_through stored_state
              "generate_assertion" DUndefined 5010 "generate_assertion"
              stored_record eq_refl eq_refl eq_refl ltac:(discriminate)
              eq_refl ltac:(discriminate) (or_introl eq_refl))
    as (t & Hname & Hadd).
  exists t. split; [exact Hname|]. rewrite Hadd. reflexivity.
Defined.

(** The first page load followed by two messages. *)
Lemma buffer_or_store_witness :
  reachable (H := sample_host) two_messages
  /\ one_medium (state two_messages).
Proof.
  assert (Hreach : reachable (H := sample_host) two_messages).
  { eexists. eapply run_step; [eapply run_step; [apply run_start|]|].
    - apply (step_event _ "generate_assertion" DUndefined 1010).
    - apply (step_event _ "xhr_complete"
               (DObject (xhr_payload "GET" "/wsapi/list_emails")) 1020). }
  split; [exact Hreach|].
  exact (buffer_or_store (H := sample_host) two_messages Hreach).
Defined.

(** A first page load with the DOM loading time 950. *)
Lemma dom_loading_on_fresh_page_witness :
  getCurrentEventStream
    (state (start_page (H := sample_host) None (Some 950) 1000 1005
                       empty_model))
  = Some [ {| ev_name := "window.dom_loading"; ev_offset := Num (-50);
              ev_rest := [] |} ].
Proof.
  destruct (dom_loading_on_fresh_page (H := sample_host) None (Some 950)
              1000 1005 empty_model eq_refl)
    as (Hes & _).
  exact Hes.
Defined.

(** A continuation page over the stored record, with the DOM loading
    time 950. *)
Lemma dom_loading_on_continuation_witness :
  exists t,
    ev_name t = "window.dom_loading"
    /\ model_getCurrent
         (snd (state (start_page (H := sample_host) (Some "#AUTH_RETURN")
                                 (Some 950) 5000 5005 stored_model)))
       = Some {| event_stream :=
                   Some (default [] (event_stream stored_record) ++ [t]);
                 fields := fields stored_record |}.
Proof.
  pose proof (dom_loading_on_continuation (H := sample_host)
                (Some "#AUTH_RETURN") 950 5000 5005 stored_model
                eq_refl ltac:(discriminate)) as Hw.
  cbv zeta in Hw. change (model_getCurrent stored_model) with (Some stored_record) in Hw.
  cbv iota beta in Hw. rewrite Hw.
  eexists. split; [|reflexivity]. reflexivity.
Defined.
